(** * Ransomware detection core of [backend/app/monitoring.py]

    A shallow embedding of the detection core: the entropy estimator
    ([FileMutationEntropy]), the sliding-window burst tracker
    ([AdaptiveBurstThreshold]), the rule engine ([RansomwareDetector]) and the
    polling loop of [FileSystemMonitor], followed by the properties of the
    specification settled on them.

    Conventions.
    - A Python [float] is a real number ([R]); comparisons of floats are the
      decidable order of [R].
    - A Python [int] is [Z] (or [nat] where the code only counts).
    - A call either returns, raises, or never returns ([Blocks]): the last
      case is what acquiring a held [threading.Lock] does. *)

From Stdlib Require Import Reals Lra Lia ZArith List Strings.Byte Strings.Ascii.
From stdpp Require Import base list strings gmap.

#[local] Open Scope R_scope.

(** ** Outcomes of a call *)

Inductive exn : Type :=
| FileNotFoundError
| PermissionError
| IsADirectoryError
| OSError
| ZeroDivisionError.

(** What a call on a receiver of state [S] can do. *)
Inductive outcome (S A : Type) : Type :=
| Returns (a : A) (s : S)
| Raises (e : exn) (s : S)
| Blocks.
Arguments Returns {S A} a s.
Arguments Raises {S A} e s.
Arguments Blocks {S A}.

Definition M (S A : Type) : Type := S -> outcome S A.

Definition ret {S A} (a : A) : M S A := fun s => Returns a s.

Definition bind {S A B} (m : M S A) (k : A -> M S B) : M S B :=
  fun s =>
    match m s with
    | Returns a s' => k a s'
    | Raises e s' => Raises e s'
    | Blocks => Blocks
    end.

Definition raise {S A} (e : exn) : M S A := fun s => Raises e s.
Definition get {S} : M S S := fun s => Returns s s.
Definition put {S} (s : S) : M S unit := fun _ => Returns tt s.

Declare Scope py_scope.
Delimit Scope py_scope with py.
Notation "x <- m ;; k" := (bind m (fun x => k))
  (at level 100, m at next level, right associativity) : py_scope.
Notation "m ;;; k" := (bind m (fun _ => k))
  (at level 100, right associativity) : py_scope.
#[local] Open Scope py_scope.

(** Run a computation of a component on the state of the object holding it. *)
Definition zoom {S T A} (proj : S -> T) (upd : T -> S -> S) (m : M T A) : M S A :=
  fun s =>
    match m (proj s) with
    | Returns a t => Returns a (upd t s)
    | Raises e t => Raises e (upd t s)
    | Blocks => Blocks
    end.

(** A fallible computation without state: file-system calls. *)
Inductive result (A : Type) : Type :=
| Ok (a : A)
| Err (e : exn).
Arguments Ok {A} a.
Arguments Err {A} e.

Definition rbind {A B} (r : result A) (k : A -> result B) : result B :=
  match r with
  | Ok a => k a
  | Err e => Err e
  end.

(** [try: body except Exception: handler]. *)
Definition try_except {A} (body : result A) (handler : exn -> A) : A :=
  match body with
  | Ok a => a
  | Err e => handler e
  end.

(** ** FileMutationEntropy *)

Definition log2 (x : R) : R := ln x / ln 2.

(** [byte_counts = [0] * 256; for byte in data: byte_counts[byte] += 1] *)
Definition count_bytes (data : list byte) : list nat :=
  fold_left (fun byte_counts b => alter S (Byte.to_nat b) byte_counts)
            data (replicate 256 0%nat).

(** One round of the loop [for count in byte_counts]. *)
Definition entropy_step (data_len : nat) (entropy : R) (count : nat) : R :=
  if (0 <? count)%nat then
    let frequency := INR count / INR data_len in
    entropy - frequency * log2 frequency
  else entropy.

Definition calculate_entropy (data : list byte) : R :=
  match data with
  | [] => 0
  | _ =>
      let byte_counts := count_bytes data in
      let data_len := length data in
      fold_left (entropy_step data_len) byte_counts 0
  end.

(** The file system as [calculate_file_entropy] sees it: [open(path, 'rb')]
    gives the bytes of the file or raises, [os.path.getsize(path)] gives a
    size or raises.  The two are separate system calls, so nothing ties the
    size to the bytes (the file may change or vanish in between). *)
Record file_system : Type := {
  fs_open : string -> result (list byte);
  fs_getsize : string -> result Z;
}.

(** [f.seek(pos); f.read(n)]: the bytes from [pos] on, at most [n] of them;
    a negative [n] reads to the end of the file. *)
Definition seek_read (content : list byte) (pos n : Z) : list byte :=
  let rest := drop (Z.to_nat pos) content in
  if (n <? 0)%Z then rest else take (Z.to_nat n) rest.

Definition file_entropy_body (fs : file_system) (file_path : string)
    (sample_size : Z) : result R :=
  rbind (fs_open fs file_path) (fun f =>
  rbind (fs_getsize fs file_path) (fun file_size =>
  if (file_size =? 0)%Z then Ok 0
  else
    let sample_positions :=
      [0%Z; (file_size / 2)%Z; Z.max 0 (file_size - sample_size)] in
    let samples :=
      map (fun pos => seek_read f pos (Z.min sample_size (file_size - pos)))
          sample_positions in
    let combined_sample := concat samples in
    Ok (calculate_entropy combined_sample))).

Definition calculate_file_entropy_sized (fs : file_system) (file_path : string)
    (sample_size : Z) : R :=
  try_except (file_entropy_body fs file_path sample_size) (fun _ => 0).

(** [sample_size: int = 8192] *)
Definition calculate_file_entropy (fs : file_system) (file_path : string) : R :=
  calculate_file_entropy_sized fs file_path 8192.

(** ** AdaptiveBurstThreshold *)

(** [datetime] values count microseconds; [timedelta(seconds=n)] is [n]
    seconds in that unit. *)
Definition datetime : Type := Z.
Bind Scope Z_scope with datetime.
Definition timedelta_seconds (n : Z) : Z := (n * 1000000)%Z.

(** [lock] is the [threading.Lock()] made by [__init__]: [true] while held.
    The lock is not re-entrant. *)
Record AdaptiveBurstThreshold : Type := {
  window_size : Z;
  burst_multiplier : R;
  file_events : list (datetime * string);
  lock : bool;
}.

Definition set_file_events (evs : list (datetime * string))
    (t : AdaptiveBurstThreshold) : AdaptiveBurstThreshold :=
  {| window_size := window_size t; burst_multiplier := burst_multiplier t;
     file_events := evs; lock := lock t |}.

Definition set_lock (held : bool) (t : AdaptiveBurstThreshold)
    : AdaptiveBurstThreshold :=
  {| window_size := window_size t; burst_multiplier := burst_multiplier t;
     file_events := file_events t; lock := held |}.

(** [AdaptiveBurstThreshold(window_size, burst_multiplier)] *)
Definition ABT_init (window_size : Z) (burst_multiplier : R)
    : AdaptiveBurstThreshold :=
  {| window_size := window_size; burst_multiplier := burst_multiplier;
     file_events := []; lock := false |}.

(** [lock.acquire()]: blocks while the lock is held, whoever holds it. *)
Definition acquire : M AdaptiveBurstThreshold unit :=
  fun t => if lock t then Blocks else Returns tt (set_lock true t).

Definition release (t : AdaptiveBurstThreshold) : AdaptiveBurstThreshold :=
  set_lock false t.

(** [with self.lock: body]: the lock is released when the body returns and
    when it raises. *)
Definition with_lock {A} (body : M AdaptiveBurstThreshold A)
    : M AdaptiveBurstThreshold A :=
  fun t =>
    match acquire t with
    | Returns _ t1 =>
        match body t1 with
        | Returns a t2 => Returns a (release t2)
        | Raises e t2 => Raises e (release t2)
        | Blocks => Blocks
        end
    | Raises e t1 => Raises e t1
    | Blocks => Blocks
    end.

(** [now] is the value of [datetime.now()] read inside the call. *)
Definition add_event (now : datetime) (file_path : string)
    : M AdaptiveBurstThreshold unit :=
  with_lock (
    t <- get ;;
    let appended := file_events t ++ [(now, file_path)] in
    let cutoff_time := (now - timedelta_seconds (window_size t))%Z in
    put (set_file_events
           (filter (fun tp => (tp.1 > cutoff_time)%Z) appended) t)).

(** [x > y] on floats. *)
Definition float_gt (x y : R) : bool := if Rgt_dec x y then true else false.

(** [a / b] with an [int] divisor. *)
Definition true_div {S} (a : R) (b : Z) : M S R :=
  if (b =? 0)%Z then raise ZeroDivisionError else ret (a / IZR b).

Definition calculate_abt : M AdaptiveBurstThreshold R :=
  with_lock (
    t <- get ;;
    if (length (file_events t) <? 10)%nat then ret 2
    else
      let recent_events := length (file_events t) in
      baseline_rate <- true_div (INR recent_events) (window_size t) ;;
      let abt := baseline_rate * burst_multiplier t in
      ret (Rmax 1 (Rmin 10 abt))).

Definition is_burst_detected : M AdaptiveBurstThreshold bool :=
  with_lock (
    t <- get ;;
    current_rate <- true_div (INR (length (file_events t)))
                             (Z.max 1 (window_size t)) ;;
    abt <- calculate_abt ;;
    ret (float_gt current_rate abt)).

(** ** RansomwareDetector *)

Inductive SeverityEnum : Type := info | low | medium | high | critical.

Inductive AlertTypeEnum : Type := ransomware | raas | suspicious | benign.

(** The strings appended to [result['reasons']]; a constructor carries the
    value its f-string formats. *)
Inductive reason : Type :=
| SuspiciousExtension (file_ext : string) (* f"Suspicious extension: {file_ext}" *)
| HighEntropy (fme : R)                   (* f"High entropy: {fme:.3f}" *)
| MediumEntropy (fme : R)                 (* f"Medium entropy: {fme:.3f}" *)
| BurstActivity                           (* "Burst activity detected" *)
| RapidEncryption                         (* "Rapid encryption pattern" *)
| RaaSPattern.                            (* "RaaS pattern detected" *)

(** The [result] dictionary of [analyze_file_change]. *)
Record Result : Type := {
  is_ransomware : bool;
  is_suspicious : bool;
  fme : R;
  abt : R;
  severity : SeverityEnum;
  type : AlertTypeEnum;
  reasons : list reason;
}.

Record RansomwareDetector : Type := {
  abt_algorithm : AdaptiveBurstThreshold;
  suspicious_extensions : gset string;
  high_entropy_threshold : R;
  medium_entropy_threshold : R;
}.

Definition set_abt_algorithm (t : AdaptiveBurstThreshold)
    (d : RansomwareDetector) : RansomwareDetector :=
  {| abt_algorithm := t; suspicious_extensions := suspicious_extensions d;
     high_entropy_threshold := high_entropy_threshold d;
     medium_entropy_threshold := medium_entropy_threshold d |}.

(** [RansomwareDetector()] *)
Definition RansomwareDetector_init : RansomwareDetector :=
  {| abt_algorithm := ABT_init 60 3;
     suspicious_extensions :=
       {[ ".enc"; ".locked"; ".crypted"; ".crypto"; ".ransom" ]}%string;
     high_entropy_threshold := 7.5;
     medium_entropy_threshold := 6 |}.

(** A call on [self.abt_algorithm]. *)
Definition on_abt {A} (m : M AdaptiveBurstThreshold A) : M RansomwareDetector A :=
  zoom abt_algorithm set_abt_algorithm m.

(** [os.path.splitext(p)[1]] of the standard library ([posixpath]): the
    extension starts at the last dot of the last path component, unless that
    component has only dots before it. *)
Fixpoint rfind_from (c : ascii) (p : list ascii) (i last : Z) : Z :=
  match p with
  | [] => last
  | x :: p' => rfind_from c p' (i + 1)%Z (if Ascii.eqb x c then i else last)
  end.

(** [p.rfind(c)]: the index of the last [c], or [-1]. *)
Definition rfind (c : ascii) (p : list ascii) : Z := rfind_from c p 0 (-1).

Definition splitext_ext (file_path : string) : string :=
  let p := String.list_ascii_of_string file_path in
  let sepIndex := rfind "/"%char p in
  let dotIndex := rfind "."%char p in
  if (sepIndex <? dotIndex)%Z then
    let filenameIndex := Z.to_nat (sepIndex + 1) in
    let before_dot := take (Z.to_nat dotIndex - filenameIndex) (drop filenameIndex p) in
    if existsb (fun ch => negb (Ascii.eqb ch "."%char)) before_dot
    then String.string_of_list_ascii (drop (Z.to_nat dotIndex) p)
    else ""%string
  else ""%string.

(** [str.lower()] on the ASCII letters. *)
Definition ascii_lower (c : ascii) : ascii :=
  let n := nat_of_ascii c in
  if (65 <=? n)%nat && (n <=? 90)%nat then ascii_of_nat (n + 32) else c.

Definition lower (s : string) : string :=
  String.string_of_list_ascii (map ascii_lower (String.list_ascii_of_string s)).

(** [result] as [analyze_file_change] first builds it. *)
Definition initial_result : Result :=
  {| is_ransomware := false; is_suspicious := false; fme := 0; abt := 0;
     severity := info; type := benign; reasons := [] |}.

Definition set_fme (v : R) (r : Result) : Result :=
  {| is_ransomware := is_ransomware r; is_suspicious := is_suspicious r;
     fme := v; abt := abt r; severity := severity r; type := type r;
     reasons := reasons r |}.

Definition set_abt (v : R) (r : Result) : Result :=
  {| is_ransomware := is_ransomware r; is_suspicious := is_suspicious r;
     fme := fme r; abt := v; severity := severity r; type := type r;
     reasons := reasons r |}.

(** [# Check for suspicious file extensions] *)
Definition check_extension (exts : gset string) (file_path : string)
    (r : Result) : Result :=
  let file_ext := lower (splitext_ext file_path) in
  if decide (file_ext ∈ exts) then
    {| is_ransomware := is_ransomware r; is_suspicious := true;
       fme := fme r; abt := abt r; severity := severity r; type := type r;
       reasons := reasons r ++ [SuspiciousExtension file_ext] |}
  else r.

(** [# Check entropy levels] *)
Definition check_entropy_levels (high_threshold medium_threshold v : R)
    (r : Result) : Result :=
  if float_gt v high_threshold then
    {| is_ransomware := true; is_suspicious := is_suspicious r;
       fme := fme r; abt := abt r; severity := critical; type := ransomware;
       reasons := reasons r ++ [HighEntropy v] |}
  else if float_gt v medium_threshold then
    {| is_ransomware := is_ransomware r; is_suspicious := true;
       fme := fme r; abt := abt r; severity := medium; type := suspicious;
       reasons := reasons r ++ [MediumEntropy v] |}
  else r.

(** [# Check for burst activity], given what [is_burst_detected()] returned. *)
Definition check_burst (burst : bool) (r : Result) : Result :=
  if burst then
    {| is_ransomware := is_ransomware r; is_suspicious := true;
       fme := fme r; abt := abt r;
       severity := match severity r with info => low | sev => sev end;
       type := type r;
       reasons := reasons r ++ [BurstActivity] |}
  else r.

(** [# Check for rapid file encryption patterns] *)
Definition check_rapid_encryption (action : string) (v : R) (r : Result)
    : Result :=
  if String.eqb action "modified" && float_gt v 6.5 then
    {| is_ransomware := true; is_suspicious := is_suspicious r;
       fme := fme r; abt := abt r; severity := high; type := ransomware;
       reasons := reasons r ++ [RapidEncryption] |}
  else r.

(** [# Check for RaaS indicators], given what [_check_raas_pattern] returned. *)
Definition check_raas (found : bool) (r : Result) : Result :=
  if found then
    {| is_ransomware := true; is_suspicious := is_suspicious r;
       fme := fme r; abt := abt r; severity := critical; type := raas;
       reasons := reasons r ++ [RaaSPattern] |}
  else r.

(** [file_events[-10:]] *)
Definition last10 {A} (l : list A) : list A := drop (length l - 10) l.

(** [_check_raas_pattern]; it runs on the tracker, whose lock it takes. *)
Definition _check_raas_pattern (fs : file_system) (file_path : string) (v : R)
    : M AdaptiveBurstThreshold bool :=
  with_lock (
    t <- get ;;
    let recent_high_entropy :=
      length (filter (fun tp => float_gt (calculate_file_entropy fs tp.2) 7 = true)
                     (last10 (file_events t))) in
    ret (5 <=? recent_high_entropy)%nat).

Definition analyze_file_change (fs : file_system) (now : datetime)
    (file_path action : string) : M RansomwareDetector (bool * Result) :=
  let result := initial_result in
  (* Calculate FME *)
  let v := calculate_file_entropy fs file_path in
  let result := set_fme v result in
  (* Update ABT *)
  on_abt (add_event now file_path) ;;;
  a <- on_abt calculate_abt ;;
  let result := set_abt a result in
  d <- get ;;
  let result := check_extension (suspicious_extensions d) file_path result in
  let result :=
    check_entropy_levels (high_entropy_threshold d) (medium_entropy_threshold d)
                         v result in
  burst <- on_abt is_burst_detected ;;
  let result := check_burst burst result in
  let result := check_rapid_encryption action v result in
  found <- on_abt (_check_raas_pattern fs file_path v) ;;
  let result := check_raas found result in
  ret (is_ransomware result || is_suspicious result, result).

(** ** FileSystemMonitor *)

(** The monitor without its database session (the session belongs to the
    persistence layer). *)
Record FileSystemMonitor : Type := {
  watch_paths : list string;
  detector : RansomwareDetector;
  running : bool;
}.


(** [FileSystemMonitor(watch_paths, detector)] followed by
    [start_monitoring()], as [start_file_monitoring] does. *)
Definition FileSystemMonitor_started (watch_paths : list string)
    (d : RansomwareDetector) : FileSystemMonitor :=
  {| watch_paths := watch_paths; detector := d; running := true |}.

(** The directory trees the loop walks: [os.path.exists] and the
    [(root, dirs, files)] triples of [os.walk]. *)
Record dir_tree : Type := {
  path_exists : string -> bool;
  os_walk : string -> list (string * list string * list string);
}.

(** [os.path.join(a, b)] of the standard library ([posixpath]). *)
Definition ends_with_sep (a : string) : bool :=
  match last (String.list_ascii_of_string a) with
  | Some c => Ascii.eqb c "/"%char
  | None => false
  end.

Definition starts_with_sep (b : string) : bool :=
  match b with
  | String c _ => Ascii.eqb c "/"%char
  | EmptyString => false
  end.

Definition path_join (a b : string) : string :=
  if starts_with_sep b then b
  else if String.eqb a "" || ends_with_sep a then (a +:+ b)%string
  else (a +:+ "/" +:+ b)%string.

(** [for x in l: acc = body(acc, x)] *)
Fixpoint for_each {S A B} (l : list A) (body : B -> A -> M S B) (acc : B)
    : M S B :=
  match l with
  | [] => ret acc
  | x :: l' => acc' <- body acc x ;; for_each l' body acc'
  end.

Section MonitorLoop.
(** Whatever [_process_file_event] works on (session, detector), and the
    call itself. *)
Context {St : Type}.
Variable _process_file_event : string -> string -> M St unit.

(** The body of [for file in files], after [file_path] is joined. *)
Definition visit_path (last_files : gset string)
    (current_files : gset string) (file_path : string) : M St (gset string) :=
  let current_files := {[ file_path ]} ∪ current_files in
  (if decide (file_path ∈ last_files) then ret tt
   else _process_file_event file_path "created") ;;;
  ret current_files.

(** The body of [for file in files]. *)
Definition visit_file (last_files : gset string) (root : string)
    (current_files : gset string) (file : string) : M St (gset string) :=
  let file_path := path_join root file in
  visit_path last_files current_files file_path.

(** The body of [for path in self.watch_paths]. *)
Definition visit_root (tree : dir_tree) (last_files : gset string)
    (current_files : gset string) (path : string) : M St (gset string) :=
  if path_exists tree path then
    for_each (os_walk tree path)
      (fun cur '(root, dirs, files) =>
         for_each files (visit_file last_files root) cur)
      current_files
  else ret current_files.

(** The [try] block of one round of [monitor_loop], up to the assignment
    of [last_files]. *)
Definition monitor_try (tree : dir_tree) (watch_paths : list string)
    (last_files : gset string) : M St (gset string) :=
  current_files <- for_each watch_paths (visit_root tree last_files) ∅ ;;
  let deleted_files := last_files ∖ current_files in
  for_each (elements deleted_files)
    (fun _ file_path => _process_file_event file_path "deleted") tt ;;;
  ret current_files.

(** One round of [monitor_loop]: the value of [last_files] after it.  An
    exception is caught at the loop boundary and leaves [last_files] as it
    was. *)
Definition monitor_iteration (tree : dir_tree) (watch_paths : list string)
    (last_files : gset string) : M St (gset string) :=
  fun s =>
    match monitor_try tree watch_paths last_files s with
    | Returns current_files s' => Returns current_files s'
    | Raises _ s' => Returns last_files s'
    | Blocks => Blocks
    end.
End MonitorLoop.

(** An event sink that writes down the calls it receives, in order. *)
Definition record_event (file_path action : string)
    : M (list (string * string)) unit :=
  fun trace => Returns tt (trace ++ [(file_path, action)]).

(** The file paths one walk meets, in the order it meets them. *)
Definition walked (tree : dir_tree) (watch_paths : list string) : list string :=
  flat_map (fun path =>
    if path_exists tree path then
      flat_map (fun '(root, dirs, files) => map (path_join root) files)
               (os_walk tree path)
    else []) watch_paths.

(** ** Status *)



(** ** Histories and sample inputs *)

(** The calls [add_event(path)] made at the given clock readings, in order. *)
Definition record_all (history : list (datetime * string))
    : M AdaptiveBurstThreshold unit :=
  for_each history (fun _ '(now, file_path) => add_event now file_path) tt.

(** A file system holding the given regular files and nothing else. *)
Definition fs_of (files : gmap string (list byte)) : file_system :=
  {| fs_open p :=
       match files !! p with
       | Some content => Ok content
       | None => Err FileNotFoundError
       end;
     fs_getsize p :=
       match files !! p with
       | Some content => Ok (Z.of_nat (length content))
       | None => Err FileNotFoundError
       end |}.

(** The 256 byte values, and a file of 512 bytes holding them twice. *)
Definition all_bytes : list byte := omap Byte.of_nat (seq 0 256).
Definition uniform_file : list byte := all_bytes ++ all_bytes.

(** Ten files of the kind [test_monitoring.py] creates ([burst_<i>.tmp]),
    each holding every byte value equally often. *)
Definition burst_paths : list string :=
  [ "/tmp/test_ransomguard/burst_0.tmp"; "/tmp/test_ransomguard/burst_1.tmp";
    "/tmp/test_ransomguard/burst_2.tmp"; "/tmp/test_ransomguard/burst_3.tmp";
    "/tmp/test_ransomguard/burst_4.tmp"; "/tmp/test_ransomguard/burst_5.tmp";
    "/tmp/test_ransomguard/burst_6.tmp"; "/tmp/test_ransomguard/burst_7.tmp";
    "/tmp/test_ransomguard/burst_8.tmp"; "/tmp/test_ransomguard/burst_9.tmp" ]%string.

Definition burst_fs : file_system :=
  fs_of (list_to_map (map (fun p => (p, uniform_file)) burst_paths)).

(** The ten files recorded one microsecond apart. *)
Definition burst_history : list (datetime * string) :=
  zip (map Z.of_nat (seq 0 10)) burst_paths.

(** The blocks of [analyze_file_change] that fill [result], in source order,
    from what the calls in between delivered: the entropy [v], the threshold
    [a], the answer [burst] of [is_burst_detected] and the answer [found] of
    [_check_raas_pattern]. *)
Definition apply_rules (d : RansomwareDetector) (file_path action : string)
    (v a : R) (burst found : bool) : Result :=
  check_raas found
    (check_rapid_encryption action v
      (check_burst burst
        (check_entropy_levels (high_entropy_threshold d)
                              (medium_entropy_threshold d) v
          (check_extension (suspicious_extensions d) file_path
            (set_abt a (set_fme v initial_result)))))).

(** [SeverityEnum] in rising order. *)
Definition severity_rank (s : SeverityEnum) : nat :=
  match s with
  | info => 0 | low => 1 | medium => 2 | high => 3 | critical => 4
  end.

(** ** Events of one round of the monitor loop *)

(** The handler called on a list of events, in order. *)
Definition deliver {St} (handler : string -> string -> M St unit)
    (events : list (string * string)) : M St unit :=
  for_each events (fun _ '(file_path, action) => handler file_path action) tt.

(** The events of a round, from the paths met and the previous snapshot: a
    [created] event at each meeting of a path that is not in [last_files],
    then a [deleted] event for each path of [last_files] not met. *)
Definition created_events (last_files : gset string) (met : list string)
    : list (string * string) :=
  map (fun p => (p, "created"%string)) (filter (fun p => p ∉ last_files) met).

Definition deleted_events (last_files current_files : gset string)
    : list (string * string) :=
  map (fun p => (p, "deleted"%string)) (elements (last_files ∖ current_files)).

Definition iteration_events (tree : dir_tree) (watch_paths : list string)
    (last_files : gset string) : list (string * string) :=
  created_events last_files (walked tree watch_paths)
  ++ deleted_events last_files (list_to_set (walked tree watch_paths)).



(** The snapshots [{a, b}] then [{b, c}] of one directory. *)
Definition abc_tree : dir_tree :=
  {| path_exists p := String.eqb p "/w";
     os_walk p := if String.eqb p "/w" then [("/w", [], ["b"; "c"])]%string else [] |}.

(** ** Invariants *)

(** What every tracker built by [__init__] and [add_event] satisfies: the
    lock is free between calls, and a window of no positive length holds no
    entry. *)
Definition tracker_ok (w : Z) (m : R) (t : AdaptiveBurstThreshold) : Prop :=
  lock t = false /\ window_size t = w /\ burst_multiplier t = m /\
  ((w <= 0)%Z -> file_events t = []).

(** No block takes a reason away or clears [is_suspicious]. *)
Definition keeps (r r' : Result) : Prop :=
  (is_suspicious r = true -> is_suspicious r' = true) /\
  (forall x, x ∈ reasons r -> x ∈ reasons r').

(** ** The sampling windows *)

#[global] Instance byte_eq_decision : EqDecision byte := Byte.byte_eq_dec.

(** How often a byte value occurs in a sample. *)
Definition occurrences (b : byte) (data : list byte) : nat :=
  length (filter (fun x => x = b) data).

(** [combined_sample] of [calculate_file_entropy]: the three reads, joined. *)
Definition combined_sample (f : list byte) (file_size sample_size : Z)
    : list byte :=
  concat (map (fun pos => seek_read f pos (Z.min sample_size (file_size - pos)))
              [0%Z; (file_size / 2)%Z; Z.max 0 (file_size - sample_size)]).

(** ** The event handler *)

Inductive FileActionEnum : Type := created | modified | deleted.

(** [FileActionEnum(action)]: the member with that value; for any other
    string the call raises [ValueError] ([None]). *)
Definition FileActionEnum_of (action : string) : option FileActionEnum :=
  if String.eqb action "created" then Some created
  else if String.eqb action "modified" then Some modified
  else if String.eqb action "deleted" then Some deleted
  else None.

(** The rows [_process_file_event] adds to its session. *)
Record FileEvent : Type := {
  fe_path : string;
  fe_action : FileActionEnum;
  fe_fme : R;
}.

Record Alert : Type := {
  al_host : string;
  al_path : string;
  al_severity : SeverityEnum;
  al_fme : R;
  al_abt : R;
  al_type : AlertTypeEnum;
}.

Inductive db_row : Type :=
| FileEventRow (e : FileEvent)
| AlertRow (a : Alert).

(** How the [try] block of [_process_file_event] ends: at its end, by an
    exception (whichever; the handler treats all alike), or not at all. *)
Inductive attempt (S : Type) : Type :=
| Done (s : S)
| Failed (s : S)
| Stuck.
Arguments Done {S} s.
Arguments Failed {S} s.
Arguments Stuck {S}.

Section ProcessFileEvent.
(** The session of the persistence layer ([self.db_session]): its state and
    its calls, each of which returns the next state or raises. *)
Context {Sess : Type}.
Variable session_add : db_row -> Sess -> result Sess.
Variable session_commit : Sess -> result Sess.
Variable session_rollback : Sess -> result Sess.
(** [os.uname().nodename] *)
Variable nodename : string.

(** The [try] block, on the monitor's detector and session. *)
Definition process_try (fs : file_system) (now : datetime)
    (file_path action : string) (s : RansomwareDetector * Sess)
    : attempt (RansomwareDetector * Sess) :=
  let '(d, db) := s in
  match FileActionEnum_of action with
  | None => Failed (d, db)
  | Some act =>
      let file_event :=
        {| fe_path := file_path; fe_action := act;
           fe_fme := calculate_file_entropy fs file_path |} in
      match session_add (FileEventRow file_event) db with
      | Err _ => Failed (d, db)
      | Ok db1 =>
          match analyze_file_change fs now file_path action d with
          | Blocks => Stuck
          | Raises _ d1 => Failed (d1, db1)
          | Returns (is_suspicious, analysis) d1 =>
              let added :=
                if is_suspicious then
                  session_add
                    (AlertRow {| al_host := nodename; al_path := file_path;
                                 al_severity := severity analysis;
                                 al_fme := fme analysis;
                                 al_abt := abt analysis;
                                 al_type := type analysis |}) db1
                else Ok db1 in
              match added with
              | Err _ => Failed (d1, db1)
              | Ok db2 =>
                  match session_commit db2 with
                  | Err _ => Failed (d1, db2)
                  | Ok db3 => Done (d1, db3)
                  end
              end
          end
      end
  end.

(** [_process_file_event]: the [try] block, and [rollback()] in the
    [except Exception] branch; an exception of the rollback leaves the
    function. *)
Definition _process_file_event (fs : file_system) (now : datetime)
    (file_path action : string) : M (RansomwareDetector * Sess) unit :=
  fun s =>
    match process_try fs now file_path action s with
    | Done s' => Returns tt s'
    | Failed (d', db') =>
        match session_rollback db' with
        | Ok db'' => Returns tt (d', db'')
        | Err e => Raises e (d', db')
        end
    | Stuck => Blocks
    end.
End ProcessFileEvent.

(** ** Starting and stopping *)

(** What the calls of [start_file_monitoring] and [stop_file_monitoring]
    into the persistence layer and the thread library answer:
    [SessionLocal()], [Thread.start()] and [db_session.close()]. *)
Record runtime : Type := {
  SessionLocal : result unit;
  thread_start : result unit;
  session_close : result unit;
}.

Definition set_running (b : bool) (m : FileSystemMonitor) : FileSystemMonitor :=
  {| watch_paths := watch_paths m; detector := detector m; running := b |}.

(** [FileSystemMonitor(watch_paths, detector)] *)
Definition FileSystemMonitor_init (rt : runtime) (watch_paths : list string)
    (d : RansomwareDetector) : result FileSystemMonitor :=
  rbind (SessionLocal rt) (fun _ =>
  Ok {| watch_paths := watch_paths; detector := d; running := false |}).

(** [start_monitoring()]: sets the flag, then starts the thread. *)
Definition start_monitoring (rt : runtime) : M FileSystemMonitor unit :=
  fun m =>
    let m := set_running true m in
    match thread_start rt with
    | Ok _ => Returns tt m
    | Err e => Raises e m
    end.

(** [stop_monitoring()]: clears the flag, waits for the thread up to five
    seconds, closes the session. *)
Definition stop_monitoring (rt : runtime) : M FileSystemMonitor unit :=
  fun m =>
    let m := set_running false m in
    match session_close rt with
    | Ok _ => Returns tt m
    | Err e => Raises e m
    end.

(** [start_file_monitoring(watch_paths)], on the global
    [_monitor_instance]. *)
Definition start_file_monitoring (rt : runtime)
    (watch_paths : option (list string)) : M (option FileSystemMonitor) bool :=
  fun inst =>
    match inst with
    | Some _ => Returns false inst
    | None =>
        let watch_paths :=
          match watch_paths with
          | None => ["/tmp/test_ransomguard"%string]
          | Some paths => paths
          end in
        let detector := RansomwareDetector_init in
        match FileSystemMonitor_init rt watch_paths detector with
        | Err _ => Returns false None
        | Ok m =>
            match start_monitoring rt m with
            | Returns _ m' => Returns true (Some m')
            | Raises _ m' => Returns false (Some m')
            | Blocks => Blocks
            end
        end
    end.

(** [stop_file_monitoring()] *)
Definition stop_file_monitoring (rt : runtime)
    : M (option FileSystemMonitor) unit :=
  fun inst =>
    match inst with
    | None => Returns tt None
    | Some m =>
        match stop_monitoring rt m with
        | Returns _ _ => Returns tt None
        | Raises e m' => Raises e (Some m')
        | Blocks => Blocks
        end
    end.

(** A runtime in which the three calls succeed. *)
Definition runtime_ok : runtime :=
  {| SessionLocal := Ok tt; thread_start := Ok tt; session_close := Ok tt |}.

(** A session that keeps the rows added and counts its commits. *)
Definition list_session : Type := list db_row * nat.
Definition list_add (row : db_row) (s : list_session) : result list_session :=
  Ok (s.1 ++ [row], s.2).
Definition list_commit (s : list_session) : result list_session :=
  Ok (s.1, S s.2).
Definition list_rollback (s : list_session) : result list_session :=
  Ok ([], s.2).

(** * Properties *)

(** ** Entropy *)

Lemma ln_le_pred (x : R) : 0 < x -> ln x <= x - 1.
Proof.
  intros Hx. pose proof (exp_ineq1_le (ln x)) as H.
  rewrite exp_ln in H by assumption. lra.
Qed.

Lemma ln_2_pos : 0 < ln 2.
Proof. pose proof ln_lt_2. lra. Qed.

Lemma ln_256 : ln 256 = 8 * ln 2.
Proof.
  replace 256 with (2 ^ 8) by (simpl; lra).
  rewrite ln_pow by lra. simpl INR. lra.
Qed.

Lemma log2_inv_256 : log2 (/ 256) = -8.
Proof.
  unfold log2. rewrite ln_Rinv by lra. rewrite ln_256.
  pose proof ln_2_pos. field. lra.
Qed.

(** A term [- p * log2 p] of the sum, for a frequency [0 < p <= 1]. *)
Lemma entropy_term_nonneg (p : R) : 0 < p -> p <= 1 -> 0 <= - (p * log2 p).
Proof.
  intros Hp Hp1. unfold log2.
  pose proof (ln_le_pred p Hp) as Hln. pose proof ln_2_pos as H2.
  assert (ln p <= 0) as Hle by lra.
  assert (ln p / ln 2 * ln 2 = ln p) as Hq by (field; lra).
  assert (ln p / ln 2 <= 0) by nra.
  nra.
Qed.


(** The byte histogram. *)
Lemma sum_list_alter_S (l : list nat) (i : nat) :
  (i < length l)%nat -> sum_list (alter S i l) = S (sum_list l).
Proof.
  revert i. induction l as [|c l IH]; intros i Hi; simpl in *; [lia|].
  destruct i as [|i]; simpl; [lia|].
  change (list_alter S i l) with (alter S i l).
  rewrite IH by lia. lia.
Qed.

Lemma count_bytes_acc (data : list byte) (bc : list nat) :
  length bc = 256%nat ->
  let bc' := fold_left (fun byte_counts b => alter S (Byte.to_nat b) byte_counts)
                       data bc in
  length bc' = 256%nat /\ sum_list bc' = (sum_list bc + length data)%nat.
Proof.
  revert bc. induction data as [|b data IH]; intros bc Hlen; simpl.
  - split; [assumption | lia].
  - pose proof (Byte.to_nat_bounded b) as Hb.
    destruct (IH (alter S (Byte.to_nat b) bc)) as [IH1 IH2].
    { rewrite length_alter. assumption. }
    split; [exact IH1|]. rewrite IH2, sum_list_alter_S by lia. lia.
Qed.

Lemma count_bytes_length (data : list byte) : length (count_bytes data) = 256%nat.
Proof. apply (count_bytes_acc data (replicate 256 0%nat)). reflexivity. Qed.

Lemma sum_list_replicate_0 (n : nat) : sum_list (replicate n 0%nat) = 0%nat.
Proof. induction n; simpl; auto. Qed.

Lemma count_bytes_sum (data : list byte) :
  sum_list (count_bytes data) = length data.
Proof.
  destruct (count_bytes_acc data (replicate 256 0%nat)) as [_ H]; [reflexivity|].
  unfold count_bytes. rewrite H, sum_list_replicate_0. reflexivity.
Qed.

(** The loop over the histogram, for any accumulator. *)
Lemma entropy_loop_lower (n : nat) (cs : list nat) (acc : R) :
  (0 < n)%nat -> Forall (fun c => (c <= n)%nat) cs ->
  acc <= fold_left (entropy_step n) cs acc.
Proof.
  intros Hn. revert acc. induction cs as [|c cs IH]; intros acc Hall; simpl.
  - lra.
  - inversion Hall as [|? ? Hc Hcs]; subst.
    eapply Rle_trans; [|apply IH; assumption].
    unfold entropy_step. destruct (Nat.ltb_spec 0 c) as [Hpos|]; [|lra].
    assert (0 < INR n) by (apply lt_0_INR; lia).
    assert (0 < INR c) by (apply lt_0_INR; lia).
    assert (INR c <= INR n) by (apply le_INR; lia).
    assert (0 < INR c / INR n) by (apply Rdiv_lt_0_compat; assumption).
    assert (INR c / INR n <= 1).
    { apply Rmult_le_reg_r with (INR n); [assumption|].
      replace (INR c / INR n * INR n) with (INR c) by (field; lra). lra. }
    pose proof (entropy_term_nonneg (INR c / INR n)). lra.
Qed.


Lemma INR_256 : INR 256 = 256.
Proof. rewrite INR_IZR_INZ. reflexivity. Qed.

Lemma calculate_entropy_nonempty (data : list byte) :
  data <> [] ->
  calculate_entropy data
  = fold_left (entropy_step (length data)) (count_bytes data) 0.
Proof. destruct data; [congruence | reflexivity]. Qed.

Lemma sum_list_bound (cs : list nat) :
  Forall (fun c => (c <= sum_list cs)%nat) cs.
Proof.
  induction cs as [|c cs IH]; constructor; simpl; [lia|].
  eapply Forall_impl; [exact IH|]. simpl. intros; lia.
Qed.


(** ** Sampling a file *)

Lemma seek_read_nil (pos n : Z) : seek_read [] pos n = [].
Proof.
  unfold seek_read. rewrite drop_nil, take_nil. destruct (n <? 0)%Z; reflexivity.
Qed.

(** C6. Whatever exception the sampling of the file raises (opening it,
    asking for its size), [calculate_file_entropy] returns 0 instead of
    raising; a file of size zero and a file without bytes give 0 as well. *)
Theorem calculate_file_entropy_failure (fs : file_system) (path : string) :
  (forall e, file_entropy_body fs path 8192 = Err e ->
             calculate_file_entropy fs path = 0) /\
  (forall e, fs_open fs path = Err e -> calculate_file_entropy fs path = 0) /\
  (forall e, fs_getsize fs path = Err e -> calculate_file_entropy fs path = 0) /\
  (fs_getsize fs path = Ok 0%Z -> calculate_file_entropy fs path = 0) /\
  (fs_open fs path = Ok [] -> calculate_file_entropy fs path = 0).
Proof.
  unfold calculate_file_entropy, calculate_file_entropy_sized, file_entropy_body.
  repeat split.
  - intros e ->. reflexivity.
  - intros e ->. reflexivity.
  - intros e ->. destruct (fs_open fs path); reflexivity.
  - intros ->. destruct (fs_open fs path); reflexivity.
  - intros ->. simpl. destruct (fs_getsize fs path) as [size|]; simpl; [|reflexivity].
    destruct (size =? 0)%Z; simpl; [reflexivity|].
    rewrite !seek_read_nil. reflexivity.
Qed.

Lemma calculate_file_entropy_failure_witness :
  calculate_file_entropy (fs_of ∅) "/tmp/test_ransomguard/gone.txt" = 0 /\
  calculate_file_entropy (fs_of {[ "/tmp/test_ransomguard/empty.txt"%string := [] ]})
                         "/tmp/test_ransomguard/empty.txt" = 0.
Proof.
  split.
  - apply (calculate_file_entropy_failure (fs_of ∅) "/tmp/test_ransomguard/gone.txt")
      with (e := FileNotFoundError).
    reflexivity.
  - apply (calculate_file_entropy_failure
             (fs_of {[ "/tmp/test_ransomguard/empty.txt"%string := [] ]})
             "/tmp/test_ransomguard/empty.txt").
    reflexivity.
Defined.

(** ** The lock *)

Lemma with_lock_held {A} (body : M AdaptiveBurstThreshold A) t :
  lock t = true -> with_lock body t = Blocks.
Proof. intros H. unfold with_lock, acquire. rewrite H. reflexivity. Qed.

Lemma with_lock_free {A} (body : M AdaptiveBurstThreshold A) t :
  lock t = false ->
  with_lock body t =
  match body (set_lock true t) with
  | Returns a t2 => Returns a (release t2)
  | Raises e t2 => Raises e (release t2)
  | Blocks => Blocks
  end.
Proof. intros H. unfold with_lock, acquire. rewrite H. reflexivity. Qed.

Lemma release_acquired t : lock t = false -> release (set_lock true t) = t.
Proof. destruct t; simpl; intros ->; reflexivity. Qed.

Lemma release_set_events evs t :
  lock t = false ->
  release (set_file_events evs (set_lock true t)) = set_file_events evs t.
Proof. destruct t; simpl; intros ->; reflexivity. Qed.

(** ** The burst window *)

Lemma add_event_free now path t :
  lock t = false ->
  add_event now path t =
  Returns tt
    (set_file_events
       (filter (fun tp => (tp.1 > now - timedelta_seconds (window_size t))%Z)
               (file_events t ++ [(now, path)])) t).
Proof.
  intros H. unfold add_event. rewrite with_lock_free by assumption.
  unfold bind, get, put. simpl. rewrite release_set_events by assumption.
  reflexivity.
Qed.

Lemma calculate_abt_free t :
  lock t = false ->
  calculate_abt t =
  if (length (file_events t) <? 10)%nat then Returns 2 t
  else if (window_size t =? 0)%Z then Raises ZeroDivisionError t
  else Returns (Rmax 1 (Rmin 10 (INR (length (file_events t))
                                 / IZR (window_size t) * burst_multiplier t))) t.
Proof.
  intros H. unfold calculate_abt. rewrite with_lock_free by assumption.
  unfold bind, get, true_div. simpl.
  destruct (length (file_events t) <? 10)%nat; simpl.
  - rewrite release_acquired by assumption. reflexivity.
  - destruct (window_size t =? 0)%Z; simpl;
      rewrite release_acquired by assumption; reflexivity.
Qed.

Lemma clamp_range (x : R) : 1 <= Rmax 1 (Rmin 10 x) <= 10.
Proof.
  split; [apply Rmax_l|].
  apply Rmax_lub; [lra | apply Rmin_l].
Qed.

Lemma clamp_cases (x : R) :
  (Rmax 1 (Rmin 10 x) = 1 /\ x <= 1) \/
  (Rmax 1 (Rmin 10 x) = x /\ 1 <= x <= 10) \/
  (Rmax 1 (Rmin 10 x) = 10 /\ 10 <= x).
Proof.
  destruct (Rle_lt_dec x 1) as [Hlow|Hlow].
  - left. split; [|assumption]. rewrite Rmin_right by lra. apply Rmax_left. assumption.
  - destruct (Rle_lt_dec x 10) as [Hhigh|Hhigh].
    + right. left. split; [|lra]. rewrite Rmin_right by lra. apply Rmax_right. lra.
    + right. right. split; [|lra]. rewrite Rmin_left by lra. apply Rmax_right. lra.
Qed.

(** What [calculate_abt] gives on a tracker whose lock is free. *)
Lemma calculate_abt_spec t :
  lock t = false ->
  ((length (file_events t) < 10)%nat -> calculate_abt t = Returns 2 t) /\
  ((10 <= length (file_events t))%nat -> window_size t <> 0%Z ->
   calculate_abt t =
   Returns (Rmax 1 (Rmin 10 (INR (length (file_events t))
                             / IZR (window_size t) * burst_multiplier t))) t) /\
  (forall a t', calculate_abt t = Returns a t' -> 1 <= a <= 10).
Proof.
  intros Hfree. rewrite calculate_abt_free by assumption.
  split; [|split].
  - intros Hlt. apply Nat.ltb_lt in Hlt. rewrite Hlt. reflexivity.
  - intros Hge Hw. apply Nat.ltb_ge in Hge. rewrite Hge.
    apply Z.eqb_neq in Hw. rewrite Hw. reflexivity.
  - intros a t'. destruct (length (file_events t) <? 10)%nat.
    + intros [= <- _]. lra.
    + destruct (window_size t =? 0)%Z; [discriminate|].
      intros [= <- _]. apply clamp_range.
Qed.

Lemma tracker_ok_init w m : tracker_ok w m (ABT_init w m).
Proof. repeat split. Qed.

Lemma tracker_ok_add_event w m t now path :
  tracker_ok w m t ->
  exists t', add_event now path t = Returns tt t' /\ tracker_ok w m t'.
Proof.
  intros (Hfree & Hw & Hm & Hempty).
  eexists. split; [apply add_event_free; assumption|].
  repeat split; simpl; try assumption.
  intros Hle. rewrite Hempty by assumption. simpl.
  rewrite filter_cons_False; [reflexivity|].
  simpl. unfold timedelta_seconds. rewrite Hw. lia.
Qed.

Lemma tracker_ok_record_all w m history t :
  tracker_ok w m t ->
  exists t', record_all history t = Returns tt t' /\ tracker_ok w m t'.
Proof.
  revert t. induction history as [|[now path] history IH]; intros t Hok.
  - exists t. split; [reflexivity | assumption].
  - destruct (tracker_ok_add_event w m t now path Hok) as (t1 & Hadd & Hok1).
    destruct (IH t1 Hok1) as (t2 & Hrec & Hok2).
    exists t2. split; [|assumption].
    unfold record_all in *. simpl. unfold bind. rewrite Hadd. exact Hrec.
Qed.

(** C2. After any history of [add_event] calls on a tracker made with any
    window size and multiplier, [calculate_abt] returns 2 when fewer than
    10 entries are in the window, and otherwise
    [(count / window_size) * burst_multiplier] clamped into [1, 10]; so the
    value it returns always lies in [1, 10]. *)
Theorem calculate_abt_range (w : Z) (m : R) (history : list (datetime * string)) :
  exists t,
    record_all history (ABT_init w m) = Returns tt t /\
    calculate_abt t =
      Returns (if (length (file_events t) <? 10)%nat then 2
               else Rmax 1 (Rmin 10 (INR (length (file_events t)) / IZR w * m))) t /\
    (forall a t', calculate_abt t = Returns a t' -> 1 <= a <= 10).
Proof.
  destruct (tracker_ok_record_all w m history _ (tracker_ok_init w m))
    as (t & Hrun & Hfree & Hw & Hm & Hempty).
  exists t. split; [assumption|].
  destruct (calculate_abt_spec t Hfree) as (Hlow & Hhigh & Hrange).
  split; [|assumption].
  destruct (Nat.ltb_spec (length (file_events t)) 10) as [Hlt|Hge].
  - apply Hlow. assumption.
  - rewrite Hhigh, Hw, Hm; [reflexivity | assumption |].
    rewrite Hw. intros ->. rewrite Hempty in Hge by lia. simpl in Hge. lia.
Qed.

(** C5. On a tracker whose lock is free, [add_event] returns, and the window
    it leaves is the old window with [(now, path)] appended, without the
    entries that are not younger than [window_size] seconds: every entry
    left is less than [window_size] seconds older than [now], nothing that
    young is dropped, and the lock is free again.  When the clock has not
    run backwards, every entry left lies between [now - window_size] and
    [now]. *)
Theorem add_event_window (t : AdaptiveBurstThreshold) (now : datetime)
    (path : string) :
  lock t = false ->
  exists t',
    add_event now path t = Returns tt t' /\
    lock t' = false /\ window_size t' = window_size t /\
    file_events t' =
      filter (fun tp => (tp.1 > now - timedelta_seconds (window_size t))%Z)
             (file_events t ++ [(now, path)]) /\
    (forall ts p, (ts, p) ∈ file_events t' ->
       (now - ts < timedelta_seconds (window_size t))%Z) /\
    (forall ts p, (ts, p) ∈ file_events t ++ [(now, path)] ->
       (now - ts < timedelta_seconds (window_size t))%Z ->
       (ts, p) ∈ file_events t') /\
    ((forall ts p, (ts, p) ∈ file_events t -> (ts <= now)%Z) ->
     forall ts p, (ts, p) ∈ file_events t' ->
       (now - timedelta_seconds (window_size t) < ts <= now)%Z).
Proof.
  intros Hfree. eexists. split; [apply add_event_free; assumption|].
  simpl. split; [assumption|]. split; [reflexivity|]. split; [reflexivity|].
  split; [|split].
  - intros ts p Hin. apply list_elem_of_filter in Hin as [Hyoung _].
    simpl in Hyoung. lia.
  - intros ts p Hin Hyoung. apply list_elem_of_filter.
    split; [simpl; lia | assumption].
  - intros Hclock ts p Hin. apply list_elem_of_filter in Hin as [Hyoung Hin].
    simpl in Hyoung. split; [lia|].
    apply elem_of_app in Hin as [Hin | Hin].
    + eapply Hclock; eassumption.
    + apply list_elem_of_singleton in Hin. injection Hin as -> _. lia.
Qed.

Lemma add_event_window_witness :
  exists t',
    add_event 61000000 "/tmp/test_ransomguard/b.txt"
      (set_file_events [(0%Z, "/tmp/test_ransomguard/a.txt"%string)] (ABT_init 60 3))
    = Returns tt t' /\
    file_events t' = [(61000000%Z, "/tmp/test_ransomguard/b.txt"%string)].
Proof.
  destruct (add_event_window
              (set_file_events [(0%Z, "/tmp/test_ransomguard/a.txt"%string)]
                               (ABT_init 60 3))
              61000000 "/tmp/test_ransomguard/b.txt" eq_refl)
    as (t' & Hrun & _ & _ & Hev & _).
  exists t'. split; [exact Hrun|]. rewrite Hev. reflexivity.
Defined.

(** ** Burst detection *)

Lemma float_gt_spec (x y : R) : float_gt x y = true <-> x > y.
Proof. unfold float_gt. destruct (Rgt_dec x y); split; auto; discriminate. Qed.

Lemma float_gt_false (x y : R) : float_gt x y = false <-> x <= y.
Proof.
  unfold float_gt. destruct (Rgt_dec x y); split; intros; try discriminate;
    try reflexivity; lra.
Qed.

(** [is_burst_detected] never returns: it takes the lock and, holding it,
    calls [calculate_abt], which waits for the same lock. *)
Lemma is_burst_detected_deadlock (t : AdaptiveBurstThreshold) :
  is_burst_detected t = Blocks.
Proof.
  unfold is_burst_detected. destruct (lock t) eqn:Hlock.
  - apply with_lock_held. assumption.
  - rewrite with_lock_free by assumption.
    unfold bind, get, true_div. simpl.
    destruct (Z.eqb_spec (Z.max 1 (window_size t)) 0) as [Hz|_]; [lia|].
    unfold ret. unfold calculate_abt. rewrite with_lock_held; reflexivity.
Qed.

(** The comparison [is_burst_detected] is written to make, with the default
    parameters: the rate exceeds the threshold exactly when the window holds
    more than 600 entries. *)
Lemma burst_comparison_default (t : AdaptiveBurstThreshold) :
  lock t = false -> window_size t = 60%Z -> burst_multiplier t = 3 ->
  exists a,
    calculate_abt t = Returns a t /\
    (float_gt (INR (length (file_events t)) / IZR (Z.max 1 (window_size t))) a = true
     <-> (600 < length (file_events t))%nat).
Proof.
  intros Hfree Hw Hm. rewrite calculate_abt_free by assumption.
  rewrite Hw, Hm. change (Z.max 1 60) with 60%Z. simpl (60 =? 0)%Z.
  set (n := length (file_events t)).
  assert (0 <= INR n) as Hn0 by apply pos_INR.
  destruct (Nat.ltb_spec n 10) as [Hlt|Hge].
  - exists 2. split; [reflexivity|]. rewrite float_gt_spec.
    pose proof (lt_INR _ _ Hlt) as HltR. simpl INR in HltR.
    split; [intros Hrate; exfalso; lra | intros Hmany; lia].
  - eexists. split; [reflexivity|]. rewrite float_gt_spec.
    destruct (Nat.le_gt_cases n 600) as [Hle|Hgt].
    + pose proof (le_INR _ _ Hle) as HleR.
      rewrite (INR_IZR_INZ 600) in HleR.
      change (Z.of_nat 600) with 600%Z in HleR.
      split; [|intros Hmany; exfalso; lia]. intros Hrate. exfalso.
      pose proof (le_INR _ _ Hge) as HgeR.
      rewrite (INR_IZR_INZ 10) in HgeR. change (Z.of_nat 10) with 10%Z in HgeR.
      destruct (clamp_cases (INR n / 60 * 3)) as [[Ha ?]|[[Ha ?]|[Ha ?]]];
        rewrite Ha in Hrate; lra.
    + split; [intros _; assumption|]. intros _.
      apply lt_INR in Hgt. rewrite (INR_IZR_INZ 600) in Hgt.
      change (Z.of_nat 600) with 600%Z in Hgt.
      pose proof (clamp_range (INR n / 60 * 3)). lra.
Qed.

(** C3. With the default parameters and after any history of [add_event]
    calls, [is_burst_detected] reports nothing, neither a burst nor its
    absence: it never returns.  The comparison it is written to make, of
    [count / max(1, window_size)] with the value of [calculate_abt], would
    hold exactly when the window has more than 600 entries. *)
Theorem is_burst_detected_default (history : list (datetime * string)) :
  exists t a,
    record_all history (ABT_init 60 3) = Returns tt t /\
    is_burst_detected t = Blocks /\
    calculate_abt t = Returns a t /\
    (float_gt (INR (length (file_events t)) / IZR (Z.max 1 (window_size t))) a = true
     <-> (600 < length (file_events t))%nat).
Proof.
  destruct (tracker_ok_record_all 60 3 history _ (tracker_ok_init 60 3))
    as (t & Hrun & Hfree & Hw & Hm & _).
  destruct (burst_comparison_default t Hfree Hw Hm) as (a & Ha & Hcmp).
  exists t, a. split; [assumption|]. split; [apply is_burst_detected_deadlock|].
  split; assumption.
Qed.

(** ** The detector *)

(** The call of [is_burst_detected] in [analyze_file_change] is reached
    unless the call already stopped earlier, and [analyze_file_change] never
    gets past it: no call of [analyze_file_change] returns. *)
Lemma analyze_file_change_never_returns fs now path action d :
  analyze_file_change fs now path action d = Blocks \/
  exists d', analyze_file_change fs now path action d = Raises ZeroDivisionError d'.
Proof.
  unfold analyze_file_change, bind, on_abt, zoom.
  destruct (lock (abt_algorithm d)) eqn:Hlock.
  - left. unfold add_event. rewrite with_lock_held by assumption. reflexivity.
  - rewrite add_event_free by assumption. cbn [abt_algorithm set_abt_algorithm].
    rewrite calculate_abt_free by exact Hlock.
    destruct (_ <? 10)%nat.
    + left. unfold get. cbn [abt_algorithm set_abt_algorithm].
      rewrite is_burst_detected_deadlock. reflexivity.
    + destruct (_ =? 0)%Z.
      * right. eexists. reflexivity.
      * left. unfold get. cbn [abt_algorithm set_abt_algorithm].
        rewrite is_burst_detected_deadlock. reflexivity.
Qed.

(** On a detector whose tracker is one that [__init__] and [add_event]
    build, the call blocks. *)
Lemma analyze_file_change_blocks fs now path action d w m :
  tracker_ok w m (abt_algorithm d) ->
  analyze_file_change fs now path action d = Blocks.
Proof.
  intros Hok.
  destruct (tracker_ok_add_event w m _ now path Hok)
    as (t1 & Hadd & Hfree & Hw & Hm & Hempty).
  unfold analyze_file_change, bind, on_abt, zoom.
  rewrite Hadd. cbn [abt_algorithm set_abt_algorithm].
  rewrite calculate_abt_free by exact Hfree.
  destruct (Nat.ltb_spec (length (file_events t1)) 10) as [Hlt|Hge].
  - unfold get. cbn [abt_algorithm set_abt_algorithm].
    rewrite is_burst_detected_deadlock. reflexivity.
  - destruct (Z.eqb_spec (window_size t1) 0) as [Hz|Hnz].
    + rewrite Hempty in Hge by lia. simpl in Hge. lia.
    + unfold get. cbn [abt_algorithm set_abt_algorithm].
      rewrite is_burst_detected_deadlock. reflexivity.
Qed.

(** *** Entropy of the sample files *)

Lemma entropy_loop_replicate (n k j : nat) (acc : R) :
  (0 < k)%nat ->
  fold_left (entropy_step n) (replicate j k) acc
  = acc + INR j * - (INR k / INR n * log2 (INR k / INR n)).
Proof.
  intros Hk. revert acc. induction j as [|j IH]; intros acc.
  - simpl. lra.
  - cbn [replicate fold_left]. rewrite IH, S_INR.
    unfold entropy_step. destruct (Nat.ltb_spec 0 k); [lra | lia].
Qed.

Lemma calculate_entropy_uniform (data : list byte) (k : nat) :
  (0 < k)%nat -> count_bytes data = replicate 256 k ->
  calculate_entropy data = 8.
Proof.
  intros Hk Hcounts.
  assert (length data = (256 * k)%nat) as Hlen.
  { rewrite <- count_bytes_sum, Hcounts. clear.
    generalize 256%nat. intros j. induction j; simpl; lia. }
  rewrite calculate_entropy_nonempty by (intros ->; simpl in Hlen; lia).
  rewrite Hcounts, Hlen, entropy_loop_replicate by assumption.
  assert (0 < INR k) by (apply lt_0_INR; assumption).
  rewrite mult_INR, INR_256.
  replace (INR k / (256 * INR k)) with (/ 256) by (field; lra).
  rewrite log2_inv_256. lra.
Qed.

(** A whole file of 512 bytes is sampled as itself, its second half and
    itself again. *)
Lemma calculate_file_entropy_uniform (fs : file_system) (path : string) :
  fs_open fs path = Ok uniform_file -> fs_getsize fs path = Ok 512%Z ->
  calculate_file_entropy fs path = 8.
Proof.
  intros Hopen Hsize.
  unfold calculate_file_entropy, calculate_file_entropy_sized, file_entropy_body.
  rewrite Hopen, Hsize. cbn [rbind try_except].
  change (512 =? 0)%Z with false. cbn iota.
  apply calculate_entropy_uniform with (k := 5%nat); [lia|].
  vm_compute. reflexivity.
Qed.

Lemma burst_fs_entropy (path : string) :
  path ∈ burst_paths -> calculate_file_entropy burst_fs path = 8.
Proof.
  intros Hin. apply calculate_file_entropy_uniform;
    unfold burst_paths in Hin;
    repeat (apply elem_of_cons in Hin as [-> | Hin]; [vm_compute; reflexivity|]);
    inversion Hin.
Qed.

Lemma burst_fs_missing (path : string) :
  path ∉ burst_paths -> calculate_file_entropy burst_fs path = 0.
Proof.
  intros Hout.
  unfold calculate_file_entropy, calculate_file_entropy_sized, file_entropy_body.
  unfold burst_fs, fs_of. cbn [fs_open].
  rewrite (not_elem_of_list_to_map_1 _ path); [reflexivity|].
  intros Hin. apply Hout.
  apply list_elem_of_fmap in Hin as ([p c] & -> & Hin).
  apply list_elem_of_fmap in Hin as (q & [= -> ->] & Hq). exact Hq.
Qed.

(** *** The rule blocks *)

(** [analyze_file_change] is its five calls, in order, around the blocks
    that fill [result]. *)
Lemma analyze_file_change_rules fs now path action :
  analyze_file_change fs now path action =
  (let v := calculate_file_entropy fs path in
   on_abt (add_event now path) ;;;
   a <- on_abt calculate_abt ;;
   d <- get ;;
   burst <- on_abt is_burst_detected ;;
   found <- on_abt (_check_raas_pattern fs path v) ;;
   let result := apply_rules d path action v a burst found in
   ret (is_ransomware result || is_suspicious result, result)).
Proof. reflexivity. Qed.

Lemma keeps_refl r : keeps r r.
Proof. split; auto. Qed.

Lemma keeps_trans r1 r2 r3 : keeps r1 r2 -> keeps r2 r3 -> keeps r1 r3.
Proof. intros [H1 H2] [H3 H4]. split; auto. Qed.

Ltac keeps_block :=
  split; simpl; [auto | intros x Hx; apply elem_of_app; left; exact Hx].

Lemma check_entropy_levels_keeps hi med v r :
  keeps r (check_entropy_levels hi med v r).
Proof.
  unfold check_entropy_levels.
  destruct (float_gt v hi); [keeps_block|].
  destruct (float_gt v med); [keeps_block | apply keeps_refl].
Qed.

Lemma check_burst_keeps burst r : keeps r (check_burst burst r).
Proof. destruct burst; [keeps_block | apply keeps_refl]. Qed.

Lemma check_rapid_encryption_keeps action v r :
  keeps r (check_rapid_encryption action v r).
Proof.
  unfold check_rapid_encryption.
  destruct (_ && _); [keeps_block | apply keeps_refl].
Qed.

Lemma check_raas_keeps found r : keeps r (check_raas found r).
Proof. destruct found; [keeps_block | apply keeps_refl]. Qed.

(** The extension block marks the result, and the blocks after it leave the
    mark: whatever the entropy and the answers of the calls. *)
Lemma apply_rules_extension d path action v a burst found :
  lower (splitext_ext path) ∈ suspicious_extensions d ->
  let r := apply_rules d path action v a burst found in
  is_suspicious r = true /\
  SuspiciousExtension (lower (splitext_ext path)) ∈ reasons r.
Proof.
  intros Hext r.
  assert (keeps (check_extension (suspicious_extensions d) path
                   (set_abt a (set_fme v initial_result))) r) as [Hs Hr].
  { unfold r, apply_rules.
    eapply keeps_trans; [apply check_entropy_levels_keeps|].
    eapply keeps_trans; [apply check_burst_keeps|].
    eapply keeps_trans; [apply check_rapid_encryption_keeps|].
    apply check_raas_keeps. }
  unfold check_extension in Hs, Hr.
  destruct (decide _) as [_|Hno]; [|contradiction].
  split; [apply Hs; reflexivity|].
  apply Hr. simpl. apply list_elem_of_singleton. reflexivity.
Qed.

(** The last block decides alone when [_check_raas_pattern] answers yes. *)
Lemma apply_rules_raas d path action v a burst :
  let r := apply_rules d path action v a burst true in
  is_ransomware r = true /\ severity r = critical /\ type r = raas /\
  RaaSPattern ∈ reasons r.
Proof.
  simpl. repeat split. apply elem_of_app. right.
  apply list_elem_of_singleton. reflexivity.
Qed.

(** The entropy block after a high entropy, and the rapid-encryption block
    after it. *)
Lemma check_entropy_levels_high hi med v r :
  v > hi -> severity (check_entropy_levels hi med v r) = critical.
Proof.
  intros Hv. unfold check_entropy_levels.
  apply float_gt_spec in Hv. rewrite Hv. reflexivity.
Qed.

Lemma check_rapid_encryption_modified v r :
  v > 6.5 -> severity (check_rapid_encryption "modified" v r) = high.
Proof.
  intros Hv. unfold check_rapid_encryption.
  apply float_gt_spec in Hv. rewrite Hv. reflexivity.
Qed.

Lemma apply_rules_modified d path v a burst :
  v > 6.5 -> severity (apply_rules d path "modified" v a burst false) = high.
Proof. intros Hv. unfold apply_rules. simpl. apply check_rapid_encryption_modified, Hv. Qed.

(** [_check_raas_pattern] on a free lock. *)
Lemma check_raas_pattern_free fs path v t :
  lock t = false ->
  _check_raas_pattern fs path v t =
  Returns (5 <=? length (filter (fun tp => float_gt (calculate_file_entropy fs tp.2) 7 = true)
                                (last10 (file_events t))))%nat t.
Proof.
  intros Hfree. unfold _check_raas_pattern. rewrite with_lock_free by assumption.
  unfold bind, get, ret. simpl. rewrite release_acquired by assumption. reflexivity.
Qed.

Lemma filter_high_hit fs (ts : datetime) (p : string) l :
  calculate_file_entropy fs p > 7 ->
  filter (fun tp : datetime * string =>
            float_gt (calculate_file_entropy fs tp.2) 7 = true) ((ts, p) :: l)
  = (ts, p) :: filter (fun tp : datetime * string =>
                         float_gt (calculate_file_entropy fs tp.2) 7 = true) l.
Proof. intros Hv. apply filter_cons_True. simpl. apply float_gt_spec, Hv. Qed.

Lemma filter_high_miss fs (ts : datetime) (p : string) l :
  calculate_file_entropy fs p <= 7 ->
  filter (fun tp : datetime * string =>
            float_gt (calculate_file_entropy fs tp.2) 7 = true) ((ts, p) :: l)
  = filter (fun tp : datetime * string =>
              float_gt (calculate_file_entropy fs tp.2) 7 = true) l.
Proof.
  intros Hv. apply filter_cons_False. simpl.
  apply float_gt_false in Hv. rewrite Hv. discriminate.
Qed.

Ltac in_burst_paths := apply list_elem_of_In; simpl; auto 20.
Ltac not_in_burst_paths :=
  rewrite list_elem_of_In; simpl; intuition discriminate.

Ltac count_high_entropy :=
  repeat first
    [ rewrite filter_high_hit by (rewrite burst_fs_entropy by in_burst_paths; lra)
    | rewrite filter_high_miss by (rewrite burst_fs_missing by not_in_burst_paths; lra) ].

(** C1. A modified file of entropy 8: the entropy block sets [critical], the
    rapid-encryption block then sets [high], which is what the blocks leave
    in [result] (the RaaS check answers no); and the call itself never
    returns, it blocks in [is_burst_detected]. *)
Theorem modified_high_entropy_lowered :
  let path := "/tmp/test_ransomguard/burst_0.tmp"%string in
  let d := RansomwareDetector_init in
  let v := calculate_file_entropy burst_fs path in
  v > 7.5 /\
  (forall r, severity (check_entropy_levels (high_entropy_threshold d)
                         (medium_entropy_threshold d) v r) = critical) /\
  (exists t1, add_event 0 path (abt_algorithm d) = Returns tt t1 /\
              _check_raas_pattern burst_fs path v t1 = Returns false t1) /\
  (forall a burst,
     severity (apply_rules d path "modified" v a burst false) = high) /\
  (severity_rank high < severity_rank critical)%nat /\
  analyze_file_change burst_fs 0 path "modified" d = Blocks.
Proof.
  intros path d v.
  assert (v = 8) as Hv by (apply burst_fs_entropy; in_burst_paths).
  split; [lra|]. split.
  { intros r. apply check_entropy_levels_high. simpl. lra. }
  split.
  { eexists. split; [vm_compute; reflexivity|].
    rewrite check_raas_pattern_free by reflexivity.
    cbn [file_events]. unfold last10. cbn [length drop Nat.sub].
    count_high_entropy. reflexivity. }
  split.
  { intros a burst. apply apply_rules_modified. lra. }
  split; [simpl; lia|].
  apply analyze_file_change_blocks with (w := 60%Z) (m := 3).
  apply tracker_ok_init.
Qed.

(** C7. Ten high-entropy files recorded one after the other, then a call
    for one more path: in the window the call leaves, nine of the last ten
    paths have entropy above 7.0 and [_check_raas_pattern] answers yes;
    with that answer the blocks leave [is_ransomware], [critical], [raas]
    and the reason in [result].  But [analyze_file_change] does not get to
    ask: it never returns. *)
Theorem raas_burst_no_verdict :
  let path := "/tmp/test_ransomguard/normal.txt"%string in
  let d := RansomwareDetector_init in
  let t10 := set_file_events burst_history (ABT_init 60 3) in
  let t11 := set_file_events (burst_history ++ [(10%Z, path)]) (ABT_init 60 3) in
  record_all burst_history (ABT_init 60 3) = Returns tt t10 /\
  add_event 10 path t10 = Returns tt t11 /\
  _check_raas_pattern burst_fs path (calculate_file_entropy burst_fs path) t11
    = Returns true t11 /\
  (forall action v a burst,
     let r := apply_rules d path action v a burst true in
     is_ransomware r = true /\ severity r = critical /\ type r = raas /\
     RaaSPattern ∈ reasons r) /\
  analyze_file_change burst_fs 10 path "created" (set_abt_algorithm t10 d)
    = Blocks.
Proof.
  intros path d t10 t11.
  split; [vm_compute; reflexivity|].
  split; [vm_compute; reflexivity|].
  split; [|split].
  - rewrite check_raas_pattern_free by reflexivity.
    unfold t11, burst_history, burst_paths, last10.
    cbn [file_events set_file_events seq map zip zip_with app length drop Nat.sub].
    count_high_entropy. reflexivity.
  - intros action v a burst. apply apply_rules_raas.
  - apply analyze_file_change_blocks with (w := 60%Z) (m := 3).
    repeat split. simpl. lia.
Qed.

(** C8. A path ending in [.locked] whose file holds nothing: the extension
    is in the suspicious set, the entropy is 0, and the blocks leave
    [is_suspicious] and the reason in [result] whatever the calls in between
    deliver.  But [analyze_file_change] returns no verdict: it never
    returns. *)
Theorem locked_extension_no_verdict :
  let path := "/tmp/test_ransomguard/report.locked"%string in
  let fs := fs_of {[ path := [] ]} in
  let d := RansomwareDetector_init in
  lower (splitext_ext path) = ".locked"%string /\
  ".locked"%string ∈ suspicious_extensions d /\
  calculate_file_entropy fs path = 0 /\
  (forall action v a burst found,
     let r := apply_rules d path action v a burst found in
     is_suspicious r = true /\ SuspiciousExtension ".locked" ∈ reasons r) /\
  analyze_file_change fs 0 path "created" d = Blocks.
Proof.
  intros path fs d.
  assert (".locked"%string ∈ suspicious_extensions d) as Hext
    by (vm_compute; reflexivity).
  split; [reflexivity|]. split; [exact Hext|]. split; [reflexivity|]. split.
  - intros action v a burst found.
    apply (apply_rules_extension d path action v a burst found). exact Hext.
  - apply analyze_file_change_blocks with (w := 60%Z) (m := 3).
    apply tracker_ok_init.
Qed.

(** ** The monitor loop *)

Lemma for_each_app {S A B} (l1 l2 : list A) (body : B -> A -> M S B) acc s :
  for_each (l1 ++ l2) body acc s
  = bind (for_each l1 body acc) (for_each l2 body) s.
Proof.
  revert acc s. induction l1 as [|x l1 IH]; intros acc s; [reflexivity|].
  simpl. unfold bind in *. destruct (body acc x s); [apply IH | reflexivity..].
Qed.

Lemma for_each_map {S A A' B} (f : A -> A') (l : list A)
    (body : B -> A' -> M S B) acc s :
  for_each (map f l) body acc s = for_each l (fun b x => body b (f x)) acc s.
Proof.
  revert acc s. induction l as [|x l IH]; intros acc s; [reflexivity|].
  simpl. unfold bind. destruct (body acc (f x) s); [apply IH | reflexivity..].
Qed.

Lemma for_each_flat_map {S A A' B} (g : A -> list A') (l : list A)
    (body : B -> A' -> M S B) acc s :
  for_each (flat_map g l) body acc s
  = for_each l (fun b x => for_each (g x) body b) acc s.
Proof.
  revert acc s. induction l as [|x l IH]; intros acc s; [reflexivity|].
  simpl. rewrite for_each_app. unfold bind.
  destruct (for_each (g x) body acc s); [apply IH | reflexivity..].
Qed.

Lemma for_each_ext {S A B} (l : list A) (body body' : B -> A -> M S B) acc s :
  (forall b x s', body b x s' = body' b x s') ->
  for_each l body acc s = for_each l body' acc s.
Proof.
  intros Hext. revert acc s. induction l as [|x l IH]; intros acc s; [reflexivity|].
  simpl. unfold bind. rewrite Hext. destruct (body' acc x s); [apply IH | reflexivity..].
Qed.

Lemma deliver_app {St} (handler : string -> string -> M St unit) e1 e2 s :
  deliver handler (e1 ++ e2) s
  = bind (deliver handler e1) (fun _ => deliver handler e2) s.
Proof.
  unfold deliver. rewrite for_each_app. unfold bind.
  destruct (for_each e1 _ tt s) as [[] s'| |]; reflexivity.
Qed.

Lemma union_cons_shift (p : string) (l : list string) (cur : gset string) :
  list_to_set l ∪ ({[ p ]} ∪ cur) = list_to_set (p :: l) ∪ cur.
Proof.
  rewrite list_to_set_cons, (assoc_L (∪)), (comm_L (∪) (list_to_set l)).
  reflexivity.
Qed.

Section MonitorLoopFacts.
Context {St : Type}.
Variable handler : string -> string -> M St unit.

(** The three nested loops are one loop over the paths met. *)
Lemma visit_roots_walked tree watch_paths last_files cur s :
  for_each watch_paths (visit_root handler tree last_files) cur s
  = for_each (walked tree watch_paths) (visit_path handler last_files) cur s.
Proof.
  unfold walked. rewrite for_each_flat_map. apply for_each_ext.
  intros b path s'. unfold visit_root.
  destruct (path_exists tree path); [|reflexivity].
  rewrite for_each_flat_map. apply for_each_ext.
  intros b' [[root dirs] files] s''. rewrite for_each_map. reflexivity.
Qed.

(** The loop over the paths met calls the handler on the [created] events
    and collects the paths. *)
Lemma visit_paths_deliver last_files met cur s :
  for_each met (visit_path handler last_files) cur s
  = (deliver handler (created_events last_files met) ;;;
     ret (list_to_set met ∪ cur)) s.
Proof.
  revert cur s. induction met as [|p met IH]; intros cur s.
  - simpl. unfold bind, deliver, ret. simpl.
    rewrite union_empty_l_L. reflexivity.
  - cbn [for_each]. unfold created_events. rewrite filter_cons.
    unfold bind at 1. unfold visit_path, bind, ret.
    destruct (decide (p ∈ last_files)) as [Hin|Hout].
    + rewrite decide_False by tauto.
      rewrite IH. unfold bind, created_events, ret.
      destruct (deliver handler _ s); try reflexivity.
      rewrite union_cons_shift. reflexivity.
    + rewrite decide_True by exact Hout.
      cbn [map]. unfold deliver. cbn [for_each]. unfold bind.
      destruct (handler p "created" s) as [[] s'| |]; try reflexivity.
      rewrite IH. unfold bind, created_events, deliver, ret.
      destruct (for_each _ _ tt s'); try reflexivity.
      rewrite union_cons_shift. reflexivity.
Qed.

(** One round calls the handler on [iteration_events], in that order, and
    then takes the paths met as the next snapshot. *)
Lemma monitor_try_deliver tree watch_paths last_files s :
  monitor_try handler tree watch_paths last_files s
  = (deliver handler (iteration_events tree watch_paths last_files) ;;;
     ret (list_to_set (walked tree watch_paths))) s.
Proof.
  unfold monitor_try, iteration_events.
  unfold bind at 1. rewrite visit_roots_walked, visit_paths_deliver.
  rewrite (union_empty_r_L (list_to_set (walked tree watch_paths))).
  unfold bind. rewrite deliver_app. unfold bind, ret.
  destruct (deliver handler (created_events _ _) s) as [[] s'| |]; try reflexivity.
  unfold deleted_events, deliver. rewrite for_each_map.
  destruct (for_each _ _ tt s') as [[] s''| |]; reflexivity.
Qed.

(** A handler whose calls do not return stops the round at its first
    event. *)
Lemma monitor_iteration_stuck tree watch_paths last_files s :
  (forall p a s', handler p a s' = Blocks) ->
  iteration_events tree watch_paths last_files <> [] ->
  monitor_iteration handler tree watch_paths last_files s = Blocks.
Proof.
  intros Hstuck Hsome. unfold monitor_iteration. rewrite monitor_try_deliver.
  unfold bind, deliver.
  destruct (iteration_events tree watch_paths last_files) as [|[p a] events];
    [congruence|].
  cbn [for_each]. unfold bind. rewrite Hstuck. reflexivity.
Qed.
End MonitorLoopFacts.

(** The recording sink. *)
Lemma deliver_record_event events trace :
  deliver record_event events trace = Returns tt (trace ++ events).
Proof.
  revert trace. unfold deliver.
  induction events as [|[p a] events IH]; intros trace.
  - simpl. unfold ret. rewrite app_nil_r. reflexivity.
  - cbn [for_each]. unfold bind, record_event at 1.
    rewrite IH, <- app_assoc. reflexivity.
Qed.

Lemma monitor_iteration_record tree watch_paths last_files trace :
  monitor_iteration record_event tree watch_paths last_files trace
  = Returns (list_to_set (walked tree watch_paths))
            (trace ++ iteration_events tree watch_paths last_files).
Proof.
  unfold monitor_iteration. rewrite monitor_try_deliver.
  unfold bind. rewrite deliver_record_event. reflexivity.
Qed.








(** The round from the snapshot [{a, b}] to [{b, c}]: one [created] event
    for [c], then one [deleted] event for [a]. *)
Lemma monitor_iteration_abc :
  monitor_iteration record_event abc_tree ["/w"%string]
    {[ "/w/a"; "/w/b" ]}%string []
  = Returns {[ "/w/b"; "/w/c" ]}%string
            [("/w/c", "created"); ("/w/a", "deleted")]%string.
Proof. vm_compute. reflexivity. Qed.


(** ** Status *)





(** * More properties of the module *)

(** ** The histogram and the entropy *)

Lemma byte_index_inj (x y : byte) : Byte.to_nat x = Byte.to_nat y -> x = y.
Proof.
  intros H. pose proof (Byte.of_to_nat x) as Hx.
  rewrite H, Byte.of_to_nat in Hx. congruence.
Qed.

Lemma occurrences_cons (b x : byte) (data : list byte) :
  occurrences b (x :: data)
  = ((if decide (x = b) then 1 else 0) + occurrences b data)%nat.
Proof.
  unfold occurrences. rewrite filter_cons.
  destruct (decide (x = b)); reflexivity.
Qed.

Lemma count_bytes_acc_lookup (data : list byte) (bc : list nat) (b : byte) :
  fold_left (fun byte_counts x => alter S (Byte.to_nat x) byte_counts) data bc
    !! Byte.to_nat b
  = (fun c => (c + occurrences b data)%nat) <$> bc !! Byte.to_nat b.
Proof.
  revert bc. induction data as [|x data IH]; intros bc.
  - simpl. destruct (bc !! Byte.to_nat b); simpl; [f_equal; unfold occurrences; simpl; lia | reflexivity].
  - cbn [fold_left]. rewrite IH, occurrences_cons.
    destruct (decide (x = b)) as [->|Hne].
    + rewrite list_lookup_alter_eq.
      destruct (bc !! Byte.to_nat b); simpl; [f_equal; lia | reflexivity].
    + rewrite list_lookup_alter_ne
        by (intros Heq; apply Hne, byte_index_inj; assumption).
      reflexivity.
Qed.

(** Slot [b] of the histogram counts the occurrences of [b]. *)
Lemma count_bytes_slot (data : list byte) (b : byte) :
  count_bytes data !! Byte.to_nat b = Some (occurrences b data).
Proof.
  unfold count_bytes. rewrite count_bytes_acc_lookup.
  rewrite lookup_replicate_2 by (pose proof (Byte.to_nat_bounded b); lia).
  reflexivity.
Qed.

Lemma count_bytes_lookup (data : list byte) (i c : nat) :
  count_bytes data !! i = Some c ->
  exists b, i = Byte.to_nat b /\ c = occurrences b data.
Proof.
  intros Hi.
  assert (i < 256)%nat as Hlt.
  { rewrite <- (count_bytes_length data). apply lookup_lt_Some with c. exact Hi. }
  pose proof (Byte.to_of_nat_option_map i) as Hopt.
  destruct (Nat.leb_spec i 255) as [_|?]; [|lia].
  destruct (Byte.of_nat i) as [b|] eqn:Hb; [|discriminate].
  exists b. injection Hopt as Hbi. split; [congruence|].
  rewrite <- Hbi, count_bytes_slot in Hi. congruence.
Qed.

Lemma count_bytes_ext (data data' : list byte) :
  (forall b, occurrences b data = occurrences b data') ->
  count_bytes data = count_bytes data'.
Proof.
  intros Hocc. apply list_eq. intros i.
  destruct (count_bytes data !! i) as [c|] eqn:Hi.
  - destruct (count_bytes_lookup _ _ _ Hi) as (b & -> & ->).
    rewrite count_bytes_slot, Hocc. reflexivity.
  - apply lookup_ge_None in Hi. rewrite count_bytes_length in Hi.
    symmetry. apply lookup_ge_None. rewrite count_bytes_length. exact Hi.
Qed.

(** X3. The entropy depends on the histogram only: two samples that hold the
    same bytes in another order have the same entropy. *)
Theorem calculate_entropy_permutation (data data' : list byte) :
  data ≡ₚ data' -> calculate_entropy data = calculate_entropy data'.
Proof.
  intros Hperm.
  assert (length data = length data') as Hlen by (rewrite Hperm; reflexivity).
  assert (count_bytes data = count_bytes data') as Hcounts.
  { apply count_bytes_ext. intros b. unfold occurrences. rewrite Hperm. reflexivity. }
  destruct data as [|x data], data' as [|x' data']; try discriminate; [reflexivity|].
  rewrite !calculate_entropy_nonempty by discriminate.
  rewrite Hcounts, Hlen. reflexivity.
Qed.

Lemma calculate_entropy_permutation_witness :
  calculate_entropy [x01; x02; x01]%byte = calculate_entropy [x02; x01; x01]%byte.
Proof.
  apply (calculate_entropy_permutation [x01; x02; x01]%byte [x02; x01; x01]%byte).
  apply Permutation_swap.
Defined.

Lemma entropy_term_pos (p : R) : 0 < p -> p < 1 -> 0 < - (p * log2 p).
Proof.
  intros Hp Hp1. unfold log2.
  pose proof (ln_le_pred p Hp) as Hln. pose proof ln_2_pos as H2.
  assert (ln p / ln 2 * ln 2 = ln p) as Hq by (field; lra).
  assert (ln p / ln 2 < 0) by nra.
  nra.
Qed.

Lemma log2_1 : log2 1 = 0.
Proof. unfold log2. rewrite ln_1. unfold Rdiv. apply Rmult_0_l. Qed.

Lemma entropy_step_full (n : nat) (acc : R) :
  (0 < n)%nat -> entropy_step n acc n = acc.
Proof.
  intros Hn. unfold entropy_step.
  destruct (Nat.ltb_spec 0 n) as [_|?]; [|lia].
  assert (0 < INR n) by (apply lt_0_INR; assumption).
  replace (INR n / INR n) with 1 by (field; lra).
  rewrite log2_1. lra.
Qed.

Lemma entropy_step_lower (n c : nat) (acc : R) :
  (0 < n)%nat -> (c <= n)%nat -> acc <= entropy_step n acc c.
Proof.
  intros Hn Hc.
  pose proof (entropy_loop_lower n [c] acc Hn) as H. simpl in H.
  apply H. constructor; [assumption | constructor].
Qed.

Lemma entropy_step_fixed (n c : nat) (acc : R) :
  (0 < n)%nat -> (c <= n)%nat -> entropy_step n acc c = acc ->
  c = 0%nat \/ c = n.
Proof.
  intros Hn Hc Hfix. unfold entropy_step in Hfix.
  destruct (Nat.ltb_spec 0 c) as [Hpos|?]; [|left; lia].
  destruct (decide (c = n)) as [->|Hne]; [right; reflexivity|]. exfalso.
  assert (0 < INR n) by (apply lt_0_INR; assumption).
  assert (0 < INR c) by (apply lt_0_INR; assumption).
  assert (INR c < INR n) by (apply lt_INR; lia).
  assert (0 < INR c / INR n) by (apply Rdiv_lt_0_compat; assumption).
  assert (INR c / INR n < 1).
  { apply Rmult_lt_reg_r with (INR n); [assumption|].
    replace (INR c / INR n * INR n) with (INR c) by (field; lra). lra. }
  pose proof (entropy_term_pos (INR c / INR n)). lra.
Qed.

(** The loop adds nothing exactly when every slot is empty or holds all the
    bytes. *)
Lemma entropy_loop_fixed (n : nat) (cs : list nat) (acc : R) :
  (0 < n)%nat -> Forall (fun c => (c <= n)%nat) cs ->
  (fold_left (entropy_step n) cs acc = acc
   <-> Forall (fun c => c = 0%nat \/ c = n) cs).
Proof.
  intros Hn. revert acc. induction cs as [|c cs IH]; intros acc Hall.
  - split; [constructor | reflexivity].
  - inversion Hall as [|? ? Hc Hcs]; subst. cbn [fold_left].
    pose proof (entropy_step_lower n c acc Hn Hc) as Hstep.
    pose proof (entropy_loop_lower n cs (entropy_step n acc c) Hn Hcs) as Hrest.
    split.
    + intros Hfix.
      assert (entropy_step n acc c = acc) as Hc0 by lra.
      constructor; [apply (entropy_step_fixed n c acc); assumption|].
      apply (IH acc Hcs). rewrite Hc0 in Hfix. exact Hfix.
    + intros Hflat. inversion Hflat as [|? ? Hc0 Hcs0]; subst.
      assert (entropy_step n acc c = acc) as ->.
      { destruct Hc0 as [->| ->]; [reflexivity | apply entropy_step_full, Hn]. }
      apply (IH acc Hcs). assumption.
Qed.

Lemma occurrences_all (b : byte) (data : list byte) :
  occurrences b data = length data <-> Forall (fun x => x = b) data.
Proof.
  unfold occurrences. induction data as [|x data IH].
  - split; [constructor | reflexivity].
  - rewrite filter_cons. pose proof (length_filter (fun y => y = b) data) as Hle.
    destruct (decide (x = b)) as [->|Hne]; cbn [length].
    + split.
      * intros [= Hlen]. constructor; [reflexivity | apply IH, Hlen].
      * intros Hall. inversion Hall; subst. f_equal. apply IH. assumption.
    + split; [lia|]. intros Hall. inversion Hall; subst. congruence.
Qed.

Lemma occurrences_none (b : byte) (data : list byte) :
  b ∉ data -> occurrences b data = 0%nat.
Proof.
  unfold occurrences. induction data as [|x data IH]; intros Hout; [reflexivity|].
  rewrite filter_cons. apply not_elem_of_cons in Hout as [Hne Hout].
  rewrite decide_False by congruence. apply IH, Hout.
Qed.

Lemma occurrences_pos (b : byte) (data : list byte) :
  b ∈ data -> (0 < occurrences b data)%nat.
Proof.
  unfold occurrences. induction 1 as [x data|x y data Hin IH];
    rewrite filter_cons.
  - rewrite decide_True by reflexivity. simpl. lia.
  - destruct (decide (y = x)); simpl; lia.
Qed.

(** X1. The entropy of a sample is 0 exactly when the sample does not hold
    two different byte values (it is empty or repeats one value). *)
Theorem calculate_entropy_zero_iff (data : list byte) :
  calculate_entropy data = 0 <-> (forall x y, x ∈ data -> y ∈ data -> x = y).
Proof.
  destruct data as [|b data].
  - split; [|reflexivity]. intros _ x y Hx. inversion Hx.
  - set (d := b :: data).
    assert (0 < length d)%nat as Hn by (simpl; lia).
    assert (Forall (fun c => (c <= length d)%nat) (count_bytes d)) as Hall
      by (rewrite <- (count_bytes_sum d); apply sum_list_bound).
    rewrite calculate_entropy_nonempty by discriminate.
    rewrite (entropy_loop_fixed (length d) (count_bytes d) 0 Hn Hall).
    rewrite Forall_lookup. split.
    + intros Hflat x y Hx Hy.
      destruct (Hflat _ _ (count_bytes_slot d x)) as [H0|Hfull].
      * pose proof (occurrences_pos x d Hx). lia.
      * apply occurrences_all in Hfull. rewrite Forall_forall in Hfull.
        symmetry. apply Hfull. assumption.
    + intros Hsame i c Hi.
      destruct (count_bytes_lookup d i c Hi) as (x & -> & ->).
      destruct (decide (x ∈ d)) as [Hin|Hout].
      * right. apply occurrences_all. apply Forall_forall.
        intros y Hy. apply Hsame; assumption.
      * left. apply occurrences_none, Hout.
Qed.

(** X2. A sample in which each of the 256 byte values occurs equally often
    has entropy exactly 8. *)
Theorem calculate_entropy_equal_frequencies (data : list byte) (k : nat) :
  (0 < k)%nat -> (forall b, occurrences b data = k) ->
  calculate_entropy data = 8.
Proof.
  intros Hk Hocc. apply calculate_entropy_uniform with (k := k); [assumption|].
  apply list_eq. intros i.
  destruct (count_bytes data !! i) as [c|] eqn:Hi.
  - destruct (count_bytes_lookup _ _ _ Hi) as (b & -> & ->).
    rewrite Hocc. symmetry. apply lookup_replicate_2.
    pose proof (Byte.to_nat_bounded b). lia.
  - apply lookup_ge_None in Hi. rewrite count_bytes_length in Hi.
    symmetry. apply lookup_ge_None. rewrite length_replicate. exact Hi.
Qed.

Lemma calculate_entropy_equal_frequencies_witness :
  calculate_entropy all_bytes = 8.
Proof.
  apply (calculate_entropy_equal_frequencies all_bytes 1); [lia|].
  intros b. destruct b; vm_compute; reflexivity.
Defined.

(** ** Sampling a file, continued *)


(** What the sampling computes, by cases on the two system calls. *)
Lemma calculate_file_entropy_cases (fs : file_system) (path : string) (s : Z) :
  calculate_file_entropy_sized fs path s =
  match fs_open fs path, fs_getsize fs path with
  | Ok f, Ok n =>
      if (n =? 0)%Z then 0 else calculate_entropy (combined_sample f n s)
  | _, _ => 0
  end.
Proof.
  unfold calculate_file_entropy_sized, file_entropy_body, combined_sample.
  destruct (fs_open fs path) as [f|]; [|reflexivity]. simpl.
  destruct (fs_getsize fs path) as [n|]; [|reflexivity]. simpl.
  destruct (n =? 0)%Z; reflexivity.
Qed.


Lemma seek_read_length (f : list byte) (pos m : Z) :
  (0 <= m)%Z -> (length (seek_read f pos m) <= Z.to_nat m)%nat.
Proof.
  intros Hm. unfold seek_read.
  destruct (Z.ltb_spec m 0) as [?|_]; [lia|].
  rewrite length_take. lia.
Qed.

Lemma combined_sample_length (f : list byte) (n s : Z) :
  (0 <= n)%Z -> (0 <= s)%Z ->
  (length (combined_sample f n s) <= 3 * Z.to_nat s)%nat.
Proof.
  intros Hn Hs. unfold combined_sample. cbn [map concat].
  rewrite app_nil_r, !length_app.
  pose proof (seek_read_length f 0 (Z.min s (n - 0))) as H1.
  pose proof (seek_read_length f (n / 2) (Z.min s (n - n / 2))) as H2.
  pose proof (seek_read_length f (Z.max 0 (n - s))
                (Z.min s (n - Z.max 0 (n - s)))) as H3.
  assert (0 <= n / 2 <= n)%Z.
  { split; [apply Z.div_pos; lia|]. apply Z.div_le_upper_bound; lia. }
  lia.
Qed.

(** X5. The entropy reported for a path is that of a sample of at most three
    times the sample size in bytes (24576 with the default size), however
    large the file is. *)
Theorem calculate_file_entropy_sample_bound (fs : file_system) (path : string)
    (s : Z) :
  (0 <= s)%Z ->
  (forall n, fs_getsize fs path = Ok n -> (0 <= n)%Z) ->
  exists sample : list byte,
    (length sample <= 3 * Z.to_nat s)%nat /\
    calculate_file_entropy_sized fs path s = calculate_entropy sample.
Proof.
  intros Hs Hsize. rewrite calculate_file_entropy_cases.
  destruct (fs_open fs path) as [f|]; [|exists []; split; [simpl; lia | reflexivity]].
  destruct (fs_getsize fs path) as [n|] eqn:Hn;
    [|exists []; split; [simpl; lia | reflexivity]].
  destruct (n =? 0)%Z; [exists []; split; [simpl; lia | reflexivity]|].
  exists (combined_sample f n s). split; [|reflexivity].
  apply combined_sample_length; [apply Hsize; reflexivity | assumption].
Qed.

Lemma calculate_file_entropy_sample_bound_witness :
  exists sample : list byte,
    (length sample <= 3 * Z.to_nat 8192)%nat /\
    calculate_file_entropy burst_fs "/tmp/test_ransomguard/burst_0.tmp"
    = calculate_entropy sample.
Proof.
  destruct (calculate_file_entropy_sample_bound burst_fs
              "/tmp/test_ransomguard/burst_0.tmp" 8192) as (sample & Hlen & Hent).
  - lia.
  - intros n Hn. vm_compute in Hn. injection Hn as <-. lia.
  - exists sample. split; [exact Hlen | exact Hent].
Defined.

Lemma take_cap {A} (l : list A) (k k' : nat) :
  Nat.min k (length l) = Nat.min k' (length l) -> take k l = take k' l.
Proof.
  intros H.
  destruct (Nat.le_gt_cases (length l) k) as [Hk|Hk];
    destruct (Nat.le_gt_cases (length l) k') as [Hk'|Hk'].
  - rewrite !take_ge by assumption. reflexivity.
  - lia.
  - lia.
  - f_equal. lia.
Qed.

(** The three windows of a file whose size is the number of its bytes: the
    first [s] bytes, [s] bytes from the middle on, and the last [s] bytes. *)
Lemma combined_sample_windows (f : list byte) (s : nat) :
  combined_sample f (Z.of_nat (length f)) (Z.of_nat s)
  = take s f ++ take s (drop (length f / 2) f) ++ drop (length f - s) f.
Proof.
  set (n := length f). unfold combined_sample. cbn [map concat].
  rewrite app_nil_r. unfold seek_read.
  assert (Z.of_nat n / 2 = Z.of_nat (n / 2))%Z as Hhalf
    by (rewrite (Nat2Z.inj_div n 2); reflexivity).
  assert (n / 2 <= n)%nat as Hle by (apply Nat.Div0.div_le_upper_bound; lia).
  rewrite Hhalf.
  destruct (Z.ltb_spec (Z.min (Z.of_nat s) (Z.of_nat n - 0)) 0) as [?|_]; [lia|].
  destruct (Z.ltb_spec (Z.min (Z.of_nat s) (Z.of_nat n - Z.of_nat (n / 2))) 0)
    as [?|_]; [lia|].
  destruct (Z.ltb_spec (Z.min (Z.of_nat s)
              (Z.of_nat n - Z.max 0 (Z.of_nat n - Z.of_nat s))) 0) as [?|_]; [lia|].
  change (Z.to_nat 0) with 0%nat. rewrite drop_0, Nat2Z.id.
  replace (Z.to_nat (Z.max 0 (Z.of_nat n - Z.of_nat s))) with (n - s)%nat by lia.
  f_equal; [|f_equal].
  - apply take_cap. fold n. lia.
  - apply take_cap. rewrite length_drop. fold n. lia.
  - apply take_ge. rewrite length_drop. fold n. lia.
Qed.

(** X6. For a file whose reported size is the number of its bytes, the
    entropy reported is that of its first [s] bytes, followed by [s] bytes
    taken from the middle on, followed by its last [s] bytes ([s] the sample
    size); bytes outside these windows do not count. *)
Theorem calculate_file_entropy_windows (fs : file_system) (path : string)
    (f : list byte) (s : nat) :
  fs_open fs path = Ok f ->
  fs_getsize fs path = Ok (Z.of_nat (length f)) ->
  calculate_file_entropy_sized fs path (Z.of_nat s)
  = calculate_entropy
      (take s f ++ take s (drop (length f / 2) f) ++ drop (length f - s) f).
Proof.
  intros Hopen Hsize. rewrite calculate_file_entropy_cases, Hopen, Hsize.
  destruct (Z.eqb_spec (Z.of_nat (length f)) 0) as [Hz|Hnz].
  - assert (f = []) as -> by (apply length_zero_iff_nil; lia).
    rewrite Nat.Div0.div_0_l, drop_0, !take_nil, drop_nil. reflexivity.
  - rewrite combined_sample_windows. reflexivity.
Qed.

Lemma calculate_file_entropy_windows_witness :
  calculate_file_entropy_sized
    (fs_of {[ "/tmp/test_ransomguard/normal.txt"%string := [x41; x42; x43; x44; x45]%byte ]})
    "/tmp/test_ransomguard/normal.txt" 2
  = calculate_entropy [x41; x42; x43; x44; x44; x45]%byte.
Proof.
  apply (calculate_file_entropy_windows
           (fs_of {[ "/tmp/test_ransomguard/normal.txt"%string
                     := [x41; x42; x43; x44; x45]%byte ]})
           "/tmp/test_ransomguard/normal.txt"
           [x41; x42; x43; x44; x45]%byte 2); reflexivity.
Defined.

(** ** The burst window, continued *)



(** X8. With a positive window size, the event just recorded is the newest
    entry of the window, and the entries kept are entries of the old window
    in their old order: nothing is reordered or inserted. *)
Theorem add_event_newest_last (t : AdaptiveBurstThreshold) (now : datetime)
    (path : string) :
  lock t = false -> (0 < window_size t)%Z ->
  exists t',
    add_event now path t = Returns tt t' /\
    last (file_events t') = Some (now, path) /\
    file_events t' `sublist_of` file_events t ++ [(now, path)] /\
    (length (file_events t') <= S (length (file_events t)))%nat.
Proof.
  intros Hfree Hw. eexists. split; [apply add_event_free; assumption|].
  cbn [file_events set_file_events].
  split; [|split].
  - rewrite filter_app, filter_cons_True
      by (simpl; unfold timedelta_seconds; lia).
    rewrite filter_nil. apply last_snoc.
  - apply sublist_filter.
  - etransitivity; [apply length_filter|]. rewrite length_app. simpl. lia.
Qed.

Lemma add_event_newest_last_witness :
  exists t',
    add_event 7 "/tmp/test_ransomguard/a.txt" (ABT_init 60 3) = Returns tt t' /\
    last (file_events t') = Some (7%Z, "/tmp/test_ransomguard/a.txt"%string).
Proof.
  destruct (add_event_newest_last (ABT_init 60 3) 7 "/tmp/test_ransomguard/a.txt")
    as (t' & Hrun & Hlast & _).
  - reflexivity.
  - simpl. lia.
  - exists t'. split; assumption.
Defined.


Lemma filter_none_of {A} (P : A -> Prop) `{forall x, Decision (P x)}
    (l : list A) :
  (forall x, x ∈ l -> ~ P x) -> filter P l = [].
Proof.
  induction l as [|x l IH]; intros Hnone; [reflexivity|].
  rewrite filter_cons, decide_False by (apply Hnone, list_elem_of_here).
  apply IH. intros y Hy. apply Hnone, list_elem_of_further, Hy.
Qed.

(** X10. After a quiet period: when every entry of the window is at least
    [window_size] seconds old at the next [add_event], the window restarts
    with that event alone. *)
Theorem add_event_after_quiet_period (t : AdaptiveBurstThreshold)
    (now : datetime) (path : string) :
  lock t = false -> (0 < window_size t)%Z ->
  (forall ts p, (ts, p) ∈ file_events t ->
                (ts + timedelta_seconds (window_size t) <= now)%Z) ->
  exists t',
    add_event now path t = Returns tt t' /\
    file_events t' = [(now, path)].
Proof.
  intros Hfree Hw Hold. eexists. split; [apply add_event_free; assumption|].
  cbn [file_events set_file_events].
  rewrite filter_app, filter_cons_True
    by (simpl; unfold timedelta_seconds; lia).
  rewrite filter_nil.
  rewrite filter_none_of; [reflexivity|].
  intros [ts p] Hin. specialize (Hold ts p Hin). simpl. lia.
Qed.

Lemma add_event_after_quiet_period_witness :
  exists t',
    add_event 60000000 "/tmp/test_ransomguard/b.txt"
      (set_file_events [(0%Z, "/tmp/test_ransomguard/a.txt"%string)] (ABT_init 60 3))
    = Returns tt t' /\
    file_events t' = [(60000000%Z, "/tmp/test_ransomguard/b.txt"%string)].
Proof.
  apply (add_event_after_quiet_period
           (set_file_events [(0%Z, "/tmp/test_ransomguard/a.txt"%string)]
                            (ABT_init 60 3))
           60000000 "/tmp/test_ransomguard/b.txt").
  - reflexivity.
  - simpl. lia.
  - intros ts p Hin. apply list_elem_of_singleton in Hin.
    injection Hin as -> _. vm_compute. discriminate.
Defined.

Lemma filter_length_mono {A} (P Q : A -> Prop)
    `{forall x, Decision (P x)} `{forall x, Decision (Q x)} (l : list A) :
  (forall x, P x -> Q x) ->
  (length (filter P l) <= length (filter Q l))%nat.
Proof.
  intros Himp. induction l as [|x l IH]; [reflexivity|].
  rewrite !filter_cons. destruct (decide (P x)) as [HP|HP].
  - rewrite decide_True by (apply Himp, HP). simpl. lia.
  - destruct (decide (Q x)); simpl; lia.
Qed.

(** X11. [_check_raas_pattern] counts window entries, not files: five of the
    last ten entries naming one and the same file of entropy above 7.0 make
    it answer yes, whatever path and entropy it is called with. *)
Theorem check_raas_pattern_single_file (fs : file_system) (t : AdaptiveBurstThreshold)
    (hot path : string) (v : R) :
  lock t = false ->
  calculate_file_entropy fs hot > 7 ->
  (5 <= length (filter (fun tp => tp.2 = hot) (last10 (file_events t))))%nat ->
  _check_raas_pattern fs path v t = Returns true t.
Proof.
  intros Hfree Hhot Hfive. rewrite check_raas_pattern_free by assumption.
  f_equal. apply Nat.leb_le. etransitivity; [exact Hfive|].
  apply filter_length_mono. intros [ts p]. simpl. intros ->.
  apply float_gt_spec, Hhot.
Qed.

Lemma check_raas_pattern_single_file_witness :
  _check_raas_pattern burst_fs "/tmp/test_ransomguard/normal.txt" 0
    (set_file_events
       (zip [1; 2; 3; 4; 5]%Z
            (replicate 5 "/tmp/test_ransomguard/burst_0.tmp"%string))
       (ABT_init 60 3))
  = Returns true
      (set_file_events
         (zip [1; 2; 3; 4; 5]%Z
              (replicate 5 "/tmp/test_ransomguard/burst_0.tmp"%string))
         (ABT_init 60 3)).
Proof.
  apply (check_raas_pattern_single_file burst_fs _
           "/tmp/test_ransomguard/burst_0.tmp").
  - reflexivity.
  - rewrite burst_fs_entropy by in_burst_paths. lra.
  - vm_compute. lia.
Defined.

(** ** The rule blocks, continued *)

Ltac rule_simpl :=
  cbn [is_ransomware is_suspicious severity type reasons fme abt
       set_abt set_fme initial_result orb andb negb app].

(** The blocks one after the other, innermost first, by cases on their
    tests. *)
Ltac rule_cases :=
  unfold apply_rules;
  unfold check_extension;
  destruct (decide (_ ∈ _)); rule_simpl;
  unfold check_entropy_levels;
  (destruct (float_gt _ (high_entropy_threshold _));
   [|destruct (float_gt _ (medium_entropy_threshold _))]); rule_simpl;
  unfold check_burst;
  match goal with |- context [if ?b then _ else _] =>
    is_var b; destruct b end; rule_simpl;
  unfold check_rapid_encryption;
  destruct (String.eqb _ "modified"); destruct (float_gt _ 6.5); rule_simpl;
  unfold check_raas;
  match goal with |- context [if ?b then _ else _] =>
    is_var b; destruct b end; rule_simpl.

(** X12. The verdict is alert-worthy ([is_ransomware or is_suspicious])
    exactly when at least one reason was recorded. *)
Theorem apply_rules_alert_iff_reason (d : RansomwareDetector)
    (path action : string) (v a : R) (burst found : bool) :
  let r := apply_rules d path action v a burst found in
  is_ransomware r || is_suspicious r = true <-> reasons r <> [].
Proof.
  cbn zeta. rule_cases; split; intros H; try reflexivity; try discriminate;
    try congruence.
Qed.

(** X13. The category fixes the class of the severity, whatever the
    thresholds: benign goes with info or low, suspicious with medium,
    ransomware with high or critical, RaaS with critical; and
    [is_ransomware] is set exactly for the last two. *)
Theorem apply_rules_type_severity (d : RansomwareDetector)
    (path action : string) (v a : R) (burst found : bool) :
  let r := apply_rules d path action v a burst found in
  match type r with
  | benign => is_ransomware r = false /\ (severity r = info \/ severity r = low)
  | suspicious => is_ransomware r = false /\ severity r = medium
  | ransomware =>
      is_ransomware r = true /\ (severity r = high \/ severity r = critical)
  | raas => is_ransomware r = true /\ severity r = critical
  end.
Proof. cbn zeta. rule_cases; auto. Qed.

(** What [RansomwareDetector()] tests, as booleans. *)
Lemma apply_rules_default path action v a burst found :
  apply_rules RansomwareDetector_init path action v a burst found
  = check_raas found
      (check_rapid_encryption action v
        (check_burst burst
          (check_entropy_levels 7.5 6 v
            (check_extension (suspicious_extensions RansomwareDetector_init)
               path (set_abt a (set_fme v initial_result)))))).
Proof. reflexivity. Qed.

(** X14. With the thresholds of [RansomwareDetector()], the five blocks
    amount to one priority list: a RaaS answer decides first, then the
    rapid-encryption rule (modified and entropy above 6.5), then high
    entropy (above 7.5), then medium entropy (above 6.0), then a burst. *)
Theorem apply_rules_priority (path action : string) (v a : R)
    (burst found : bool) :
  let r := apply_rules RansomwareDetector_init path action v a burst found in
  let rapid := String.eqb action "modified" && float_gt v 6.5 in
  severity r =
    (if found then critical else if rapid then high
     else if float_gt v 7.5 then critical
     else if float_gt v 6 then medium
     else if burst then low else info) /\
  type r =
    (if found then raas else if rapid || float_gt v 7.5 then ransomware
     else if float_gt v 6 then suspicious else benign) /\
  is_ransomware r = found || rapid || float_gt v 7.5 /\
  is_suspicious r =
    bool_decide (lower (splitext_ext path)
                 ∈ suspicious_extensions RansomwareDetector_init)
    || (negb (float_gt v 7.5) && float_gt v 6) || burst.
Proof.
  cbn zeta. rewrite apply_rules_default.
  unfold check_extension.
  destruct (decide (lower (splitext_ext path)
                    ∈ suspicious_extensions RansomwareDetector_init)) as [Hin|Hout];
    [rewrite (bool_decide_eq_true_2 _ Hin) | rewrite (bool_decide_eq_false_2 _ Hout)];
    rule_simpl.
  all: unfold check_entropy_levels;
    (destruct (float_gt v 7.5); [|destruct (float_gt v 6)]); rule_simpl.
  all: unfold check_burst; destruct burst; rule_simpl.
  all: unfold check_rapid_encryption;
    destruct (String.eqb action "modified"); destruct (float_gt v 6.5);
    rule_simpl.
  all: unfold check_raas; destruct found; rule_simpl.
  all: repeat split; try reflexivity.
  all: destruct (float_gt v 6); reflexivity.
Qed.

(** ** The event handler *)

Lemma FileActionEnum_of_valid (action : string) :
  action = "created"%string \/ action = "deleted"%string ->
  exists act, FileActionEnum_of action = Some act.
Proof. intros [-> | ->]; eexists; reflexivity. Qed.

Section ProcessFileEventFacts.
Context {Sess : Type}.
Variable session_add : db_row -> Sess -> result Sess.
Variable session_commit : Sess -> result Sess.
Variable session_rollback : Sess -> result Sess.
Variable nodename : string.

(** The [try] block never reaches its end. *)
Lemma process_try_not_done fs now path action s s' :
  process_try session_add session_commit nodename fs now path action s
  <> Done s'.
Proof.
  unfold process_try. destruct s as [d db].
  destruct (FileActionEnum_of action); [|discriminate].
  destruct (session_add _ db); [|discriminate].
  destruct (analyze_file_change_never_returns fs now path action d)
    as [-> | [d' ->]]; discriminate.
Qed.

(** X15. An event that cannot be recorded is dropped without a trace in the
    detector: when the action is none of created, modified, deleted, or
    when adding the file-event row raises, [_process_file_event] only rolls
    the session back; the burst window does not see the event. *)
Theorem process_file_event_rejected (fs : file_system) (now : datetime)
    (path action : string) (d : RansomwareDetector) (db : Sess) :
  (FileActionEnum_of action = None \/
   forall row, exists e, session_add row db = Err e) ->
  _process_file_event session_add session_commit session_rollback nodename
    fs now path action (d, db)
  = match session_rollback db with
    | Ok db' => Returns tt (d, db')
    | Err e => Raises e (d, db)
    end.
Proof.
  intros Hbad. unfold _process_file_event, process_try.
  destruct Hbad as [-> | Hadd]; [reflexivity|].
  destruct (FileActionEnum_of action) as [act|]; [|reflexivity].
  match goal with |- context [session_add ?row db] =>
    destruct (Hadd row) as [e ->] end.
  reflexivity.
Qed.

Lemma process_try_stuck fs now path action d db w m :
  tracker_ok w m (abt_algorithm d) ->
  FileActionEnum_of action <> None ->
  (forall row, exists db', session_add row db = Ok db') ->
  process_try session_add session_commit nodename fs now path action (d, db)
  = Stuck.
Proof.
  intros Hok Hact Hadd. unfold process_try.
  destruct (FileActionEnum_of action) as [act|]; [|congruence].
  match goal with |- context [session_add ?row db] =>
    destruct (Hadd row) as [db' ->] end.
  rewrite (analyze_file_change_blocks fs now path action d w m Hok).
  reflexivity.
Qed.

(** X16. An event of a valid action whose row the session accepts is never
    finished: on a detector whose tracker [__init__] and [add_event] built,
    [_process_file_event] does not return. *)
Theorem process_file_event_blocks (fs : file_system) (now : datetime)
    (path action : string) (d : RansomwareDetector) (db : Sess) (w : Z) (m : R) :
  tracker_ok w m (abt_algorithm d) ->
  FileActionEnum_of action <> None ->
  (forall row, exists db', session_add row db = Ok db') ->
  _process_file_event session_add session_commit session_rollback nodename
    fs now path action (d, db) = Blocks.
Proof.
  intros Hok Hact Hadd. unfold _process_file_event.
  rewrite (process_try_stuck fs now path action d db w m Hok Hact Hadd).
  reflexivity.
Qed.
End ProcessFileEventFacts.

(** X17. [_process_file_event] never commits: its [try] block never reaches
    [commit()], so what the call does is the same whatever [commit] would
    do, and every call that ends has gone through [rollback()]. *)
Theorem process_file_event_never_commits {Sess : Type}
    (session_add : db_row -> Sess -> result Sess)
    (commit1 commit2 : Sess -> result Sess)
    (session_rollback : Sess -> result Sess) (nodename : string)
    (fs : file_system) (now : datetime) (path action : string)
    (s : RansomwareDetector * Sess) :
  _process_file_event session_add commit1 session_rollback nodename
    fs now path action s
  = _process_file_event session_add commit2 session_rollback nodename
    fs now path action s /\
  (forall s', _process_file_event session_add commit1 session_rollback nodename
                fs now path action s = Returns tt s' ->
     exists d' db', s' = (d', db') /\
       exists db0, session_rollback db0 = Ok db').
Proof.
  split.
  - unfold _process_file_event, process_try. destruct s as [d db].
    destruct (FileActionEnum_of action); [|reflexivity].
    destruct (session_add _ db); [|reflexivity].
    destruct (analyze_file_change_never_returns fs now path action d)
      as [-> | [d' ->]]; reflexivity.
  - intros s'. unfold _process_file_event.
    destruct (process_try _ _ _ _ _ _ _ s) as [s1|[d1 db1]|] eqn:Htry.
    + exfalso. exact (process_try_not_done _ _ _ _ _ _ _ _ _ Htry).
    + destruct (session_rollback db1) as [db2|] eqn:Hrb; [|discriminate].
      intros [= <-]. exists d1, db2. split; [reflexivity|].
      exists db1. exact Hrb.
    + discriminate.
Qed.

Lemma process_file_event_rejected_witness :
  _process_file_event list_add list_commit list_rollback "host"
    (fs_of ∅) 0 "/tmp/test_ransomguard/a.txt" "renamed"
    (RansomwareDetector_init, ([], 0%nat))
  = Returns tt (RansomwareDetector_init, ([], 0%nat)).
Proof.
  apply (process_file_event_rejected list_add list_commit list_rollback "host"
           (fs_of ∅) 0 "/tmp/test_ransomguard/a.txt" "renamed"
           RansomwareDetector_init ([], 0%nat)).
  left. reflexivity.
Defined.

Lemma process_file_event_blocks_witness :
  _process_file_event list_add list_commit list_rollback "host"
    (fs_of ∅) 0 "/tmp/test_ransomguard/a.txt" "created"
    (RansomwareDetector_init, ([], 0%nat))
  = Blocks.
Proof.
  apply (process_file_event_blocks list_add list_commit list_rollback "host"
           (fs_of ∅) 0 "/tmp/test_ransomguard/a.txt" "created"
           RansomwareDetector_init ([], 0%nat) 60 3).
  - apply tracker_ok_init.
  - discriminate.
  - intros row. eexists. reflexivity.
Defined.

(** ** The monitor loop, continued *)

Lemma created_events_actions last_files met e :
  e ∈ created_events last_files met -> e.2 = "created"%string.
Proof.
  unfold created_events. intros Hin.
  apply list_elem_of_fmap in Hin as (p & -> & _). reflexivity.
Qed.

Lemma deleted_events_actions last_files current_files e :
  e ∈ deleted_events last_files current_files -> e.2 = "deleted"%string.
Proof.
  unfold deleted_events. intros Hin.
  apply list_elem_of_fmap in Hin as (p & -> & _). reflexivity.
Qed.

Lemma iteration_events_actions tree watch_paths last_files e :
  e ∈ iteration_events tree watch_paths last_files ->
  e.2 = "created"%string \/ e.2 = "deleted"%string.
Proof.
  unfold iteration_events. intros Hin. apply elem_of_app in Hin as [Hin|Hin].
  - left. eapply created_events_actions, Hin.
  - right. eapply deleted_events_actions, Hin.
Qed.

(** X18. A round of the monitor loop that has an event to hand over never
    ends: with a session that accepts rows and a detector whose tracker
    [__init__] and [add_event] built, the round stops in the handling of
    its first event. *)
Theorem monitor_round_hangs {Sess : Type}
    (session_add : db_row -> Sess -> result Sess)
    (session_commit session_rollback : Sess -> result Sess)
    (nodename : string) (fs : file_system)
    (clock : string -> string -> datetime)
    (tree : dir_tree) (watch_paths : list string) (last_files : gset string)
    (d : RansomwareDetector) (db : Sess) (w : Z) (m : R) :
  tracker_ok w m (abt_algorithm d) ->
  (forall row db0, exists db', session_add row db0 = Ok db') ->
  iteration_events tree watch_paths last_files <> [] ->
  monitor_iteration
    (fun p a => _process_file_event session_add session_commit
                  session_rollback nodename fs (clock p a) p a)
    tree watch_paths last_files (d, db)
  = Blocks.
Proof.
  intros Hok Hadd Hsome. unfold monitor_iteration.
  rewrite monitor_try_deliver. unfold bind, deliver.
  pose proof (iteration_events_actions tree watch_paths last_files) as Hact.
  destruct (iteration_events tree watch_paths last_files) as [|[p a] events];
    [congruence|].
  cbn [for_each]. unfold bind, _process_file_event.
  rewrite (process_try_stuck session_add session_commit nodename fs
             (clock p a) p a d db w m Hok);
    [reflexivity| |intros row; apply Hadd].
  destruct (FileActionEnum_of_valid a) as [act ->]; [|discriminate].
  apply (Hact (p, a)). apply list_elem_of_here.
Qed.

Lemma monitor_round_hangs_witness :
  monitor_iteration
    (fun p a => _process_file_event list_add list_commit list_rollback "host"
                  (fs_of ∅) 0 p a)
    abc_tree ["/w"%string] ∅ (RansomwareDetector_init, ([], 0%nat))
  = Blocks.
Proof.
  apply (monitor_round_hangs list_add list_commit list_rollback "host" (fs_of ∅)
           (fun _ _ => 0%Z) abc_tree ["/w"%string] ∅
           RansomwareDetector_init ([], 0%nat) 60 3).
  - apply tracker_ok_init.
  - intros row db0. eexists. reflexivity.
  - vm_compute. discriminate.
Defined.

Lemma created_events_first_round (met : list string) :
  created_events ∅ met = map (fun p => (p, "created"%string)) met.
Proof.
  unfold created_events. f_equal. induction met as [|p met IH]; [reflexivity|].
  rewrite filter_cons_True by apply not_elem_of_empty. f_equal. exact IH.
Qed.

Lemma created_events_known (met : list string) (last_files : gset string) :
  (forall p, p ∈ met -> p ∈ last_files) -> created_events last_files met = [].
Proof.
  intros Hknown. unfold created_events. rewrite filter_none_of; [reflexivity|].
  intros p Hp Hnew. apply Hnew, Hknown, Hp.
Qed.

Lemma deleted_events_none (last_files current_files : gset string) :
  last_files ⊆ current_files -> deleted_events last_files current_files = [].
Proof.
  intros Hsub. unfold deleted_events.
  replace (last_files ∖ current_files) with (∅ : gset string);
    [rewrite elements_empty; reflexivity|].
  symmetry. apply set_eq. intros p. rewrite elem_of_difference.
  split; [|intros H; inversion H]. intros [Hin Hout]. exfalso. apply Hout, Hsub, Hin.
Qed.

(** X19. The first round reports every file it meets as created, in the
    order of the walk, and reports nothing as deleted: the loop starts from
    an empty snapshot. *)
Theorem monitor_first_round (tree : dir_tree) (watch_paths : list string) :
  monitor_iteration record_event tree watch_paths ∅ []
  = Returns (list_to_set (walked tree watch_paths))
            (map (fun p => (p, "created"%string)) (walked tree watch_paths)).
Proof.
  rewrite monitor_iteration_record. unfold iteration_events.
  rewrite created_events_first_round, deleted_events_none, app_nil_r
    by apply empty_subseteq.
  reflexivity.
Qed.

(** X20. A second round over an unchanged tree is silent: run from the
    snapshot the first round returned, it hands over no event and returns
    the same snapshot, even when the walk meets paths twice. *)
Theorem monitor_stable_round (tree : dir_tree) (watch_paths : list string)
    (S1 : gset string) (trace : list (string * string)) :
  (S2 <- monitor_iteration record_event tree watch_paths S1 ;;
   monitor_iteration record_event tree watch_paths S2) trace
  = monitor_iteration record_event tree watch_paths S1 trace.
Proof.
  unfold bind. rewrite !monitor_iteration_record.
  f_equal. rewrite <- (app_nil_r (trace ++ _)) at 2. f_equal.
  unfold iteration_events.
  rewrite created_events_known
    by (intros p Hp; apply elem_of_list_to_set; exact Hp).
  rewrite deleted_events_none by reflexivity. reflexivity.
Qed.

(** X21. The loop never reports a modification: every event of a round is
    [created] or [deleted], so the rapid-encryption block, which asks for
    [modified], leaves the result of every event of the loop as it is. *)
Theorem monitor_never_modified (tree : dir_tree) (watch_paths : list string)
    (S1 : gset string) :
  exists S2 trace,
    monitor_iteration record_event tree watch_paths S1 [] = Returns S2 trace /\
    forall p a, (p, a) ∈ trace ->
      (a = "created"%string \/ a = "deleted"%string) /\
      forall v r, check_rapid_encryption a v r = r.
Proof.
  eexists _, _. split; [apply monitor_iteration_record|].
  cbn [app]. intros p a Hin.
  apply iteration_events_actions in Hin. simpl in Hin.
  split; [exact Hin|]. intros v r. unfold check_rapid_encryption.
  destruct Hin as [-> | ->]; reflexivity.
Qed.






(** ** Starting and stopping *)




(** X25. While an instance is set, a second start is refused and changes
    nothing (the first call's paths stay); after a stop that succeeds, a
    start works again. *)
Theorem start_twice_and_restart (rt rt' : runtime) (p1 p2 : option (list string)) :
  SessionLocal rt = Ok tt -> thread_start rt = Ok tt ->
  session_close rt = Ok tt ->
  (start_file_monitoring rt p1 ;;; start_file_monitoring rt' p2) None
  = Returns false
      (Some (FileSystemMonitor_started
               (default ["/tmp/test_ransomguard"%string] p1)
               RansomwareDetector_init)) /\
  (start_file_monitoring rt p1 ;;; stop_file_monitoring rt ;;;
   start_file_monitoring rt p2) None
  = Returns true
      (Some (FileSystemMonitor_started
               (default ["/tmp/test_ransomguard"%string] p2)
               RansomwareDetector_init)).
Proof.
  intros Hsession Hthread Hclose.
  unfold bind, start_file_monitoring, stop_file_monitoring,
    FileSystemMonitor_init, start_monitoring, stop_monitoring.
  rewrite Hsession, Hthread, Hclose. cbn [rbind].
  split; [destruct p1; reflexivity|].
  destruct p2; reflexivity.
Qed.

Lemma start_twice_and_restart_witness :
  (start_file_monitoring runtime_ok (Some ["/data"%string]) ;;;
   start_file_monitoring runtime_ok (Some ["/other"%string])) None
  = Returns false
      (Some (FileSystemMonitor_started ["/data"%string] RansomwareDetector_init)).
Proof.
  apply (start_twice_and_restart runtime_ok runtime_ok
           (Some ["/data"%string]) (Some ["/other"%string])); reflexivity.
Defined.

(** X26. What a start from the unset state leaves: it returns [True]
    exactly when both [SessionLocal()] and the start of the thread succeed,
    and it leaves the instance unset exactly when [SessionLocal()] raises;
    so a start whose thread fails returns [False] with an instance set and
    flagged running. *)
Theorem start_outcome (rt : runtime) (paths : option (list string)) :
  exists ok inst,
    start_file_monitoring rt paths None = Returns ok inst /\
    (ok = true <-> (SessionLocal rt = Ok tt /\ thread_start rt = Ok tt)) /\
    (inst = None <-> exists e, SessionLocal rt = Err e) /\
    (forall m, inst = Some m -> running m = true).
Proof.
  unfold start_file_monitoring, FileSystemMonitor_init, start_monitoring.
  destruct (SessionLocal rt) as [[]|e]; cbn [rbind].
  - destruct (thread_start rt) as [[]|e']; eexists _, _;
      (split; [reflexivity|]); (split; [|split]).
    + split; [auto | reflexivity].
    + split; [discriminate | intros [e He]; discriminate].
    + intros m [= <-]. reflexivity.
    + split; [discriminate | intros [_ H]; discriminate].
    + split; [discriminate | intros [e He]; discriminate].
    + intros m [= <-]. reflexivity.
  - eexists _, _. split; [reflexivity|]. split; [|split].
    + split; [discriminate | intros [H _]; discriminate].
    + split; [eauto | reflexivity].
    + discriminate.
Qed.


